(** * streamlit_app.py: the BG/NBD customer-lifetime-value tool

    A shallow embedding of [src/streamlit_app.py].  The script is a thin
    pipeline around three libraries (pandas, lifetimes, streamlit):

    - [load_and_preprocess_data] validates an uploaded CSV,
    - [main] summarises it per customer, fits the model, predicts,
      draws two charts and offers a zip archive for download,
    - [save_model_params] / [load_model_params] convert a fitted model to
      and from a plain dictionary.

    The library routines the script calls are collected in the record
    [Lib]; every statement about the script is made for an arbitrary [Lib]
    unless it needs what a routine computes. *)

From Stdlib Require Import ZArith List String Ascii Bool Lia.
From Stdlib Require Import SpecFloat DecimalString QArith Qround.
Import ListNotations.

Open Scope string_scope.
Open Scope Z_scope.

(** ** Values *)

(** A Python float is an IEEE binary64 value. *)
Definition float := spec_float.

(** One cell of a pandas column.  [NA] stands for every missing marker
    (NaN, None, NaT); [Timestamp d] is a calendar date, as the number of
    days since 1970-01-01; [Num n] is a numeric cell holding a whole
    number (the counts and day differences of the summary table);
    [Flt x] is any other float. *)
Inductive cell :=
| NA
| Str (s : string)
| Timestamp (d : Z)
| Num (n : Z)
| Flt (x : float).

Definition float_eqb (x y : float) : bool :=
  match x, y with
  | S754_zero s, S754_zero s' => Bool.eqb s s'
  | S754_infinity s, S754_infinity s' => Bool.eqb s s'
  | S754_nan, S754_nan => true
  | S754_finite s m e, S754_finite s' m' e' =>
      Bool.eqb s s' && Pos.eqb m m' && Z.eqb e e'
  | _, _ => false
  end.

Definition cell_eqb (a b : cell) : bool :=
  match a, b with
  | NA, NA => true
  | Str s, Str s' => String.eqb s s'
  | Timestamp d, Timestamp d' => Z.eqb d d'
  | Num n, Num n' => Z.eqb n n'
  | Flt x, Flt x' => float_eqb x x'
  | _, _ => false
  end.

(** [Series.isnull] on one cell. *)
Definition isnull (c : cell) : bool :=
  match c with
  | NA => true
  | Flt S754_nan => true
  | _ => false
  end.

Definition notnull (c : cell) : bool := negb (isnull c).

(** ** Exceptions and the error monad *)

Inductive exn :=
| ValueError (msg : string)
| KeyError (key : string)
| TypeError (msg : string)
| LibraryError (cls msg : string).

(** [str(e)] *)
Definition str (e : exn) : string :=
  match e with
  | ValueError msg => msg
  | KeyError key => "'" ++ key ++ "'"
  | TypeError msg => msg
  | LibraryError _ msg => msg
  end.

(** A computation that returns or raises. *)
Definition result (A : Type) : Type := exn + A.

Definition ret {A} (a : A) : result A := inr a.
Definition raise {A} (e : exn) : result A := inl e.
Definition bind {A B} (m : result A) (k : A -> result B) : result B :=
  match m with
  | inl e => inl e
  | inr a => k a
  end.

Declare Scope py_scope.
Delimit Scope py_scope with py.
Notation "x <- m ;; k" := (bind m (fun x => k))
  (at level 61, m at next level, right associativity) : py_scope.
Open Scope py_scope.

(** ** Data frames *)

(** A pandas [DataFrame]: a row index (with its optional name) and named
    columns, in order. *)
Record DataFrame := mkFrame {
  index_name : option string;
  index : list cell;
  columns : list (string * list cell)
}.

Definition column_names (df : DataFrame) : list string :=
  map fst (columns df).

(** [col in df.columns] *)
Definition has_column (df : DataFrame) (col : string) : bool :=
  existsb (String.eqb col) (column_names df).

Fixpoint lookup {A} (col : string) (l : list (string * A)) : option A :=
  match l with
  | [] => None
  | (k, v) :: l' => if String.eqb col k then Some v else lookup col l'
  end.

(** [df[col]] *)
Definition getitem (df : DataFrame) (col : string) : result (list cell) :=
  match lookup col (columns df) with
  | Some v => ret v
  | None => raise (KeyError col)
  end.

Fixpoint assign {A} (col : string) (v : A) (l : list (string * A))
  : list (string * A) :=
  match l with
  | [] => [(col, v)]
  | (k, w) :: l' =>
      if String.eqb col k then (k, v) :: l' else (k, w) :: assign col v l'
  end.

(** [df[col] = v]: an existing column is replaced where it stands, a new
    one is appended. *)
Definition setitem (df : DataFrame) (col : string) (v : list cell) : DataFrame :=
  mkFrame (index_name df) (index df) (assign col v (columns df)).

(** Keep the elements of [l] whose flag in [mask] is set. *)
Fixpoint select {A} (mask : list bool) (l : list A) : list A :=
  match mask, l with
  | b :: mask', x :: l' => if b then x :: select mask' l' else select mask' l'
  | _, _ => []
  end.

Fixpoint zip_and (m1 m2 : list bool) : list bool :=
  match m1, m2 with
  | a :: m1', b :: m2' => (a && b) :: zip_and m1' m2'
  | _, _ => []
  end.

(** The rows that [dropna(subset=...)] keeps: those with no missing value
    in any column of [subset]. *)
Fixpoint keep_mask (df : DataFrame) (subset : list string) : result (list bool) :=
  match subset with
  | [] => ret (map (fun _ => true) (index df))
  | col :: subset' =>
      c <- getitem df col ;;
      m <- keep_mask df subset' ;;
      ret (zip_and (map notnull c) m)
  end.

(** [df.dropna(subset=subset)] *)
Definition dropna (df : DataFrame) (subset : list string) : result DataFrame :=
  m <- keep_mask df subset ;;
  ret (mkFrame (index_name df) (select m (index df))
         (map (fun kv => (fst kv, select m (snd kv))) (columns df))).

(** [df.head()] *)
Definition head (df : DataFrame) : DataFrame :=
  mkFrame (index_name df) (firstn 5 (index df))
    (map (fun kv => (fst kv, firstn 5 (snd kv))) (columns df)).

Definition nrows (df : DataFrame) : nat := List.length (index df).

(** Every column is as long as the index, as in every frame pandas
    builds. *)
Definition well_formed (df : DataFrame) : Prop :=
  Forall (fun kv => List.length (snd kv) = nrows df) (columns df).

(** ** [Series.max()] and [int()] *)

(** The number a numeric cell holds: a rational number or an infinity. *)
Inductive extended :=
| MinusInfinity
| Finite (q : Q)
| PlusInfinity.

(** The value of a float: sign, mantissa [m] and exponent [e] stand for
    [m] times 2 to the [e]; NaN has none. *)
Definition float_value (x : float) : option extended :=
  match x with
  | S754_zero _ => Some (Finite (inject_Z 0))
  | S754_infinity s => Some (if s then MinusInfinity else PlusInfinity)
  | S754_nan => None
  | S754_finite s m e =>
      let q := if 0 <=? e then inject_Z (Z.pos m * 2 ^ e)
               else Qmake (Z.pos m) (2 ^ Z.to_pos (- e)) in
      Some (Finite (if s then Qopp q else q))
  end.

Definition number (c : cell) : option extended :=
  match c with
  | Num n => Some (Finite (inject_Z n))
  | Flt x => float_value x
  | _ => None
  end.

(** [a < b], exactly, as Python compares numbers. *)
Definition extended_ltb (a b : extended) : bool :=
  match a, b with
  | MinusInfinity, MinusInfinity => false
  | MinusInfinity, _ => true
  | Finite _, MinusInfinity => false
  | Finite p, Finite q => negb (Qle_bool q p)
  | Finite _, PlusInfinity => true
  | PlusInfinity, _ => false
  end.

(** The larger of two cells of one kind: two dates, two texts, or two
    numbers (whole or float, compared by value); [None] when the kinds
    differ (pandas raises [TypeError] on such a column). *)
Definition cell_max (a b : cell) : option cell :=
  match a, b with
  | Timestamp x, Timestamp y => Some (Timestamp (Z.max x y))
  | Str x, Str y =>
      Some (match String.compare x y with Lt => Str y | _ => Str x end)
  | _, _ =>
      match number a, number b with
      | Some u, Some v => Some (if extended_ltb u v then b else a)
      | _, _ => None
      end
  end.

(** [s.max()] skips missing values and is missing itself when nothing
    is left. *)
Fixpoint series_max_from (acc : cell) (s : list cell) : result cell :=
  match s with
  | [] => ret acc
  | c :: s' =>
      if isnull c then series_max_from acc s'
      else if isnull acc then series_max_from c s'
      else match cell_max acc c with
           | Some m => series_max_from m s'
           | None => raise (TypeError "'>=' not supported between instances")
           end
  end.

Definition series_max (s : list cell) : result cell := series_max_from NA s.

(** [int(x)]: truncation towards zero.  A text cell does not occur in the
    numeric columns [int] is applied to; it is modelled as raising. *)
Definition py_int (c : cell) : result Z :=
  match c with
  | Num n => ret n
  | Flt (S754_zero _) => ret 0
  | Flt (S754_finite s m e) =>
      let a := if 0 <=? e then Z.pos m * 2 ^ e else Z.pos m / 2 ^ (- e) in
      ret (if s then - a else a)
  | Flt (S754_infinity _) =>
      raise (LibraryError "OverflowError" "cannot convert float infinity to integer")
  | Flt S754_nan | NA => raise (ValueError "cannot convert float NaN to integer")
  | Str _ => raise (ValueError "invalid literal for int() with base 10")
  | Timestamp _ =>
      raise (TypeError "int() argument must be a string, a bytes-like object or a real number")
  end.

(** A rational number cut to a whole number, towards zero. *)
Definition truncate (q : Q) : Z :=
  if Qle_bool (inject_Z 0) q then Qfloor q else Qceiling q.

(** [range(n)] *)
Definition range (n : Z) : list Z := map Z.of_nat (seq 0 (Z.to_nat n)).

(** ** Python values, series and the fitted model *)

(** An index label or dictionary key: a name, or a position. *)
Inductive label :=
| Name (s : string)
| Pos (n : Z).

Definition label_eqb (a b : label) : bool :=
  match a, b with
  | Name s, Name s' => String.eqb s s'
  | Pos n, Pos n' => Z.eqb n n'
  | _, _ => false
  end.

(** The values a parameter dictionary is built from. *)
#[warnings="-register-all"]
Inductive pyvalue :=
| PyFloat (x : float)
| PyDict (items : list (label * pyvalue)).

(** A [dict]: its items in insertion order, keys distinct. *)
Definition pydict := list (label * pyvalue).

(** [d[k] = v] *)
Fixpoint dict_setitem (d : pydict) (k : label) (v : pyvalue) : pydict :=
  match d with
  | [] => [(k, v)]
  | (k', w) :: d' =>
      if label_eqb k k' then (k', v) :: d' else (k', w) :: dict_setitem d' k v
  end.

Definition label_repr (k : label) : string :=
  match k with
  | Name s => s
  | Pos n => DecimalString.NilZero.string_of_int (Z.to_int n)
  end.

(** [d[k]] *)
Fixpoint dict_getitem (d : pydict) (k : label) : result pyvalue :=
  match d with
  | [] => raise (KeyError (label_repr k))
  | (k', v) :: d' => if label_eqb k k' then ret v else dict_getitem d' k
  end.

(** A labelled pandas [Series], as the pairs (label, value) in order;
    labels may repeat. *)
Definition Series := list (label * pyvalue).

(** [s.to_dict()]: a later value wins over an earlier one with the same
    label. *)
Definition to_dict (s : Series) : pydict :=
  fold_left (fun d kv => dict_setitem d (fst kv) (snd kv)) s [].

(** [pd.Series(v)]: a dictionary gives one entry per item, a scalar a
    single entry at position 0. *)
Definition pd_Series (v : pyvalue) : Series :=
  match v with
  | PyDict items => items
  | PyFloat x => [(Pos 0, PyFloat x)]
  end.

(** The two attributes of a [BetaGeoFitter] the script reads and writes. *)
Record BetaGeoFitter := mkBetaGeoFitter {
  penalizer_coef : pyvalue;
  params_ : Series
}.

(** [save_model_params] *)
Definition save_model_params (bgf : BetaGeoFitter) : pydict :=
  [ (Name "params", PyDict (to_dict (params_ bgf)));
    (Name "penalizer_coef", penalizer_coef bgf) ].

(** [load_model_params] *)
Definition load_model_params (params_dict : pydict) : result BetaGeoFitter :=
  pc <- dict_getitem params_dict (Name "penalizer_coef") ;;
  p <- dict_getitem params_dict (Name "params") ;;
  ret (mkBetaGeoFitter pc (pd_Series p)).

(** ** The exported documents *)

(** A JSON text, by its syntax tree. *)
#[warnings="-register-all"]
Inductive json :=
| JNumber (x : float)
| JObject (members : list (string * json)).

(** [json.dumps]: keys are written as strings. *)
Fixpoint json_dumps (v : pyvalue) : json :=
  match v with
  | PyFloat x => JNumber x
  | PyDict items =>
      JObject (map (fun kv => match kv with
                              | (k, w) => (label_repr k, json_dumps w)
                              end) items)
  end.

(** The fields of a JSON object, in order. *)
Definition top_level_fields (j : json) : list string :=
  match j with
  | JNumber _ => []
  | JObject members => map fst members
  end.

(** A delimited text: the header line and the records below it. *)
Record csv := mkCsv {
  header : list string;
  records : list (list cell)
}.

(** [df.to_csv(index=False)]: the columns only, the row index is left
    out. *)
Definition to_csv (df : DataFrame) : csv :=
  mkCsv (column_names df)
    (map (fun i => map (fun kv => nth i (snd kv) NA) (columns df))
       (seq 0 (nrows df))).

Inductive entry_data :=
| CsvText (c : csv)
| JsonText (j : json).

(** A zip archive under construction: its entries, in the order written. *)
Definition ZipFile := list (string * entry_data).

Definition writestr (zip_file : ZipFile) (name : string) (data : entry_data)
  : ZipFile :=
  (zip_file ++ [(name, data)])%list.

(** ** What the page shows *)

(** One row of the heat map's data. *)
Record heat_row := mkHeat {
  Recency : Z;
  Frequency : Z;
  Expected_Purchases : float
}.

(** The Streamlit calls of the script, in the order made. *)
Inductive ui_event :=
| StTitle (s : string)
| StInfo (s : string)
| StError (s : string)
| StSuccess (s : string)
| StSubheader (s : string)
| StWrite (s : string)
| StWriteFrame (df : DataFrame)
| StAltairChart (data : list heat_row)
| StPyplot
| StDownloadButton (label : string) (data : ZipFile) (file_name mime : string).

(** A run of the script: what it has shown, and whether it returned or an
    exception left it. *)
Definition St (A : Type) : Type := list ui_event -> list ui_event * result A.

Definition st_ret {A} (a : A) : St A := fun ui => (ui, inr a).
Definition st_bind {A B} (m : St A) (k : A -> St B) : St B :=
  fun ui => match m ui with
            | (ui', inr a) => k a ui'
            | (ui', inl e) => (ui', inl e)
            end.
Definition emit (ev : ui_event) : St unit := fun ui => ((ui ++ [ev])%list, inr tt).
Definition lift {A} (m : result A) : St A := fun ui => (ui, m).

Notation "x <~ m ;; k" := (st_bind m (fun x => k))
  (at level 61, m at next level, right associativity) : py_scope.
Notation "m ;;; k" := (st_bind m (fun _ => k))
  (at level 61, right associativity) : py_scope.

(** ** The library routines *)

(** What the script imports and calls.  Nothing is assumed about what a
    routine computes.  The reader, the summary routine, the fit and the
    plot may raise.  The date conversion is called with errors='coerce'
    and is taken to return, a value it cannot parse becoming NaT; the
    prediction formula is taken to return as well. *)
Record Lib := mkLib {
  (** [pd.read_csv(file)] *)
  read_csv : string -> result DataFrame;
  (** [pd.to_datetime(column, errors='coerce')], cell by cell; [None] is
      NaT *)
  to_datetime : cell -> option Z;
  (** [lifetimes.utils.summary_data_from_transaction_data(transactions,
      customer_id_col, datetime_col, observation_period_end=...)] *)
  summary_data_from_transaction_data :
    DataFrame -> string -> string -> cell -> result DataFrame;
  (** [BetaGeoFitter(penalizer_coef).fit(frequency, recency, T)]: the
      fitted [params_] *)
  fit : pyvalue -> list cell -> list cell -> list cell -> result Series;
  (** [bgf.conditional_expected_number_of_purchases_up_to_time(t,
      frequency, recency, T)] *)
  conditional_expected_number_of_purchases_up_to_time :
    BetaGeoFitter -> cell -> cell -> cell -> cell -> float;
  (** [lifetimes.plotting.plot_period_transactions(bgf, ax=ax)] *)
  plot_period_transactions : BetaGeoFitter -> result unit
}.

(** ** The script *)

Section Script.

Variable L : Lib.

Definition required_columns : list string := ["customer_id"; "date"].

Definition schema_message : string :=
  "The dataset must contain the following columns: "
  ++ String.concat ", " required_columns.

Definition date_message : string :=
  "Some date values couldn't be parsed. Please ensure all dates are in a valid format.".

(** [pd.to_datetime(column, errors='coerce')] on one cell: a value that
    does not parse becomes missing. *)
Definition to_datetime_coerce (c : cell) : cell :=
  match to_datetime L c with
  | Some d => Timestamp d
  | None => NA
  end.

(** The body of the [try] block of [load_and_preprocess_data]. *)
Definition load_try (file : string) : result DataFrame :=
  sales_data <- read_csv L file ;;
  if negb (forallb (has_column sales_data) required_columns)
  then raise (ValueError schema_message)
  else
    date <- getitem sales_data "date" ;;
    let sales_data := setitem sales_data "date" (map to_datetime_coerce date) in
    date <- getitem sales_data "date" ;;
    if existsb isnull date
    then raise (ValueError date_message)
    else dropna sales_data ["customer_id"; "date"].

(** [load_and_preprocess_data]: whatever the body raises is shown with
    [st.error], and [None] is returned. *)
Definition load_and_preprocess_data (file : string) : St (option DataFrame) :=
  fun ui =>
    match load_try file with
    | inr sales_data => (ui, inr (Some sales_data))
    | inl e => ((ui ++ [StError ("Error loading data: " ++ str e)])%list, inr None)
    end.

(** [train_model] *)
Definition train_model (summary : DataFrame) (penalizer : pyvalue)
  : result BetaGeoFitter :=
  frequency <- getitem summary "frequency" ;;
  recency <- getitem summary "recency" ;;
  T <- getitem summary "T" ;;
  p <- fit L penalizer frequency recency T ;;
  ret (mkBetaGeoFitter penalizer p).

Fixpoint map3 {A B C D} (f : A -> B -> C -> D)
  (la : list A) (lb : list B) (lc : list C) : list D :=
  match la, lb, lc with
  | a :: la', b :: lb', c :: lc' => f a b c :: map3 f la' lb' lc'
  | _, _, _ => []
  end.

(** [make_predictions]: the formula, row by row. *)
Definition make_predictions (bgf : BetaGeoFitter) (summary : DataFrame)
  (time_period : Z) : result (list cell) :=
  frequency <- getitem summary "frequency" ;;
  recency <- getitem summary "recency" ;;
  T <- getitem summary "T" ;;
  ret (map3 (fun f r t =>
               Flt (conditional_expected_number_of_purchases_up_to_time
                      L bgf (Num time_period) f r t))
         frequency recency T).

(** The list [data] that [plot_frequency_recency_heatmap] fills. *)
Definition heatmap_data (bgf : BetaGeoFitter) (summary : DataFrame)
  : result (list heat_row) :=
  frequency <- getitem summary "frequency" ;;
  fmax <- series_max frequency ;;
  fint <- py_int fmax ;;
  let max_frequency := Z.min fint 50 in
  T <- getitem summary "T" ;;
  tmax <- series_max T ;;
  tint <- py_int tmax ;;
  let max_recency := Z.min tint 50 in
  ret (flat_map
         (fun i =>
            map (fun j =>
                   mkHeat i j
                     (conditional_expected_number_of_purchases_up_to_time
                        L bgf (Num 30) (Num j) (Num i) (Num max_recency)))
              (range (max_frequency + 1)))
         (range (max_recency + 1))).

(** [plot_frequency_recency_heatmap] *)
Definition plot_frequency_recency_heatmap (bgf : BetaGeoFitter)
  (summary : DataFrame) : St unit :=
  data <~ lift (heatmap_data bgf summary) ;;
  emit (StAltairChart data) ;;;
  emit (StWrite "Frequency-Recency Matrix: Darker colors indicate higher expected future purchases in the next 30 days.").

(** [plot_validation] *)
Definition plot_validation (bgf : BetaGeoFitter) (summary : DataFrame)
  : St unit :=
  lift (plot_period_transactions L bgf) ;;;
  emit StPyplot ;;;
  emit (StWrite "This plot shows how well the model fits the data, comparing actual vs. predicted transactions.").

(** [df[[c1, c2, ...]]] *)
Fixpoint select_columns (df : DataFrame) (cols : list string)
  : result (list (string * list cell)) :=
  match cols with
  | [] => ret []
  | c :: cols' =>
      v <- getitem df c ;;
      rest <- select_columns df cols' ;;
      ret ((c, v) :: rest)
  end.

Definition getitems (df : DataFrame) (cols : list string) : result DataFrame :=
  cs <- select_columns df cols ;;
  ret (mkFrame (index_name df) (index df) cs).

(** Line 105 of [main]: the summary table, with the latest date of the
    data as the end of the observation period. *)
Definition transform (sales_data : DataFrame) : result DataFrame :=
  date <- getitem sales_data "date" ;;
  observation_period_end <- series_max date ;;
  summary_data_from_transaction_data L sales_data "customer_id" "date"
    observation_period_end.

(** The archive [main] builds. *)
Definition export_zip (bgf : BetaGeoFitter) (summary : DataFrame) : ZipFile :=
  let zip_file := [] in
  let csv_data := to_csv summary in
  let zip_file := writestr zip_file "predictions.csv" (CsvText csv_data) in
  let model_params := save_model_params bgf in
  writestr zip_file "model_params.json"
    (JsonText (json_dumps (PyDict model_params))).

(** The block of [main] under [if sales_data is not None]. *)
Definition run_pipeline (sales_data : DataFrame) (penalizer : float)
  (time_period : Z) : St unit :=
  emit (StWrite "Sales Data Preview:") ;;;
  emit (StWriteFrame (head sales_data)) ;;;
  summary <~ lift (transform sales_data) ;;
  emit (StWrite "Transformed Data Preview:") ;;;
  emit (StWriteFrame (head summary)) ;;;
  bgf <~ lift (train_model summary (PyFloat penalizer)) ;;
  emit (StSuccess "BG/NBD model trained successfully!") ;;;
  predicted <~ lift (make_predictions bgf summary time_period) ;;
  let summary := setitem summary "predicted_transactions" predicted in
  emit (StWrite "Predictions:") ;;;
  table <~ lift (getitems summary
                   ["frequency"; "recency"; "T"; "predicted_transactions"]) ;;
  emit (StWriteFrame table) ;;;
  emit (StSubheader "Model Visualizations") ;;;
  plot_frequency_recency_heatmap bgf summary ;;;
  emit (StSubheader "Model Validation") ;;;
  plot_validation bgf summary ;;;
  emit (StDownloadButton "Download Predictions and Model Parameters as ZIP"
          (export_zip bgf summary)
          "predictions_and_model_params.zip" "application/zip").

(** [main]: [uploaded_file] is what the uploader holds, [penalizer] and
    [time_period] are the positions of the two sliders. *)
Definition main (uploaded_file : option string) (penalizer : float)
  (time_period : Z) : St unit :=
  emit (StTitle "Customer Lifetime Value Prediction with BG/NBD Model") ;;;
  match uploaded_file with
  | Some file =>
      sales_data <~ load_and_preprocess_data file ;;
      match sales_data with
      | Some sales_data => run_pipeline sales_data penalizer time_period
      | None => st_ret tt
      end
  | None => emit (StInfo "Please upload a sales history dataset to proceed.")
  end.

End Script.

(** What a run showed, and the exception that ended it, if any. *)
Definition shown {A} (m : St A) : list ui_event := fst (m []).
Definition outcome {A} (m : St A) : result A := snd (m []).

(** ** The summary table *)

(** One purchase of the cleaned log. *)
Record TransactionRecord := mkTransaction {
  customer_id : cell;
  date : Z
}.

(** One row of the summary table; the three numbers are in days. *)
Record CustomerSummary := mkSummary {
  customer : cell;
  frequency : Z;
  recency : Z;
  T : Z
}.

(** Modelled from the spec: the distinct customers of a log (section 3,
    one record per distinct [customer_id]), in the order they first
    appear; part of the summary routine, whose code is not under src/. *)
Fixpoint distinct (ids : list cell) : list cell :=
  match ids with
  | [] => []
  | c :: ids' => c :: filter (fun x => negb (cell_eqb x c)) (distinct ids')
  end.

(** Modelled from the spec: the transaction dates of customer [c] (part
    of the summary routine, whose code is not under src/). *)
Definition dates_of (c : cell) (log : list TransactionRecord) : list Z :=
  map date (filter (fun r => cell_eqb (customer_id r) c) log).

(** Modelled from the spec: the first and the last observed transaction
    of a customer (part of the summary routine, not under src/). *)
Definition first_date (ds : list Z) : Z := fold_right Z.min (hd 0 ds) ds.
Definition last_date (ds : list Z) : Z := fold_right Z.max (hd 0 ds) ds.

(** Modelled from the spec: the row of one customer.  The routine
    [lifetimes.utils.summary_data_from_transaction_data] is imported, its
    code is not under src/.  Spec, section 3: frequency is the customer's
    number of transactions minus one, recency the time from the first to
    the last transaction, T the time from the first transaction to the
    observation cutoff. *)
Definition summarize_customer (log : list TransactionRecord) (cutoff : Z)
  (c : cell) : CustomerSummary :=
  let ds := dates_of c log in
  mkSummary c
    (Z.of_nat (List.length ds) - 1)
    (last_date ds - first_date ds)
    (cutoff - first_date ds).

(** Modelled from the spec: the summary of a cleaned log, one row per
    distinct customer (the library routine is not under src/). *)
Definition summarize (log : list TransactionRecord) (cutoff : Z)
  : list CustomerSummary :=
  map (summarize_customer log cutoff) (distinct (map customer_id log)).

(** Modelled from the spec: the cleaned transaction sequence a frame
    holds, that is its rows with a customer and a date (part of the
    summary routine, not under src/). *)
Fixpoint transaction_log (ids dates : list cell) : list TransactionRecord :=
  match ids, dates with
  | c :: ids', Timestamp d :: dates' =>
      if isnull c then transaction_log ids' dates'
      else mkTransaction c d :: transaction_log ids' dates'
  | _ :: ids', _ :: dates' => transaction_log ids' dates'
  | _, _ => []
  end.

(** Modelled from the spec: the summary as a frame, keyed by the customer
    (section 4.1), with the three derived columns (section 3); part of the
    summary routine, not under src/. *)
Definition summary_frame (key : string) (rows : list CustomerSummary)
  : DataFrame :=
  mkFrame (Some key) (map customer rows)
    [ ("frequency", map (fun r => Num (frequency r)) rows);
      ("recency", map (fun r => Num (recency r)) rows);
      ("T", map (fun r => Num (T r)) rows) ].

(** Modelled from the spec: [summary_data_from_transaction_data], whose
    code (package lifetimes) is not under src/.  Spec, section 4.1: the
    input is the cleaned transaction sequence, the two column names and
    the observation cutoff; the output has one row per distinct customer,
    keyed by [customer_id]; a log without rows fails. *)
Definition spec_summary (transactions : DataFrame)
  (customer_id_col datetime_col : string) (observation_period_end : cell)
  : result DataFrame :=
  ids <- getitem transactions customer_id_col ;;
  dates <- getitem transactions datetime_col ;;
  match transaction_log ids dates, observation_period_end with
  | [], _ => raise (LibraryError "EmptyDatasetError" "no valid rows remain after cleanup")
  | log, Timestamp cutoff => ret (summary_frame customer_id_col (summarize log cutoff))
  | _, _ => raise (TypeError "observation_period_end is not a date")
  end.

(** ** Calendar dates *)

(** The day number of the civil date [y]-[m]-[d] (proleptic Gregorian),
    counted from 1970-01-01. *)
Definition days_from_civil (y m d : Z) : Z :=
  let y' := if m <=? 2 then y - 1 else y in
  let era := y' / 400 in
  let yoe := y' - era * 400 in
  let mp := if 2 <? m then m - 3 else m + 9 in
  let doy := (153 * mp + 2) / 5 + d - 1 in
  let doe := yoe * 365 + yoe / 4 - yoe / 100 + doy in
  era * 146097 + doe - 719468.

Definition is_leap (y : Z) : bool :=
  ((y mod 4 =? 0) && negb (y mod 100 =? 0)) || (y mod 400 =? 0).

Definition days_in_month (y m : Z) : Z :=
  if m =? 2 then (if is_leap y then 29 else 28)
  else if (m =? 4) || (m =? 6) || (m =? 9) || (m =? 11) then 30
  else 31.

(** ** A small library instance

    Stand-ins for the imported routines, simple enough to run: they are
    what the examples below are evaluated with.  No statement about the
    script depends on them. *)

(** Split a text at every [sep]. *)
Fixpoint split_on (sep : ascii) (s : string) : list string :=
  match s with
  | EmptyString => [""]
  | String c s' =>
      if Ascii.eqb c sep then "" :: split_on sep s'
      else match split_on sep s' with
           | w :: ws => String c w :: ws
           | [] => [String c ""]
           end
  end.

Definition newline : ascii := "010"%char.

Definition nonempty (s : string) : bool :=
  match s with
  | EmptyString => false
  | _ => true
  end.

Definition field_cell (s : string) : cell :=
  if nonempty s then Str s else NA.

(** A reader for plain comma-separated text: the first line is the
    header, blank lines are skipped, an empty field is a missing value,
    every other field is kept as text.  A text without a header line is
    an error. *)
Definition sample_read_csv (file : string) : result DataFrame :=
  match filter nonempty (split_on newline file) with
  | [] => raise (LibraryError "EmptyDataError" "No columns to parse from file")
  | h :: lines =>
      let names := split_on "," h in
      let rows := map (fun l => map field_cell (split_on "," l)) lines in
      ret (mkFrame None
             (map (fun i => Num (Z.of_nat i)) (seq 0 (List.length rows)))
             (map (fun k => (nth k names "", map (fun row => nth k row NA) rows))
                (seq 0 (List.length names))))
  end.

Definition digit (c : ascii) : option Z :=
  let n := Z.of_nat (nat_of_ascii c) in
  if (48 <=? n) && (n <=? 57) then Some (n - 48) else None.

Fixpoint digits (acc : Z) (s : string) : option Z :=
  match s with
  | EmptyString => Some acc
  | String c s' =>
      match digit c with
      | Some n => digits (10 * acc + n) s'
      | None => None
      end
  end.

(** A date parser for the form YYYY-MM-DD only. *)
Definition sample_to_datetime (c : cell) : option Z :=
  match c with
  | Timestamp d => Some d
  | Str s =>
      match split_on "-" s with
      | [ys; ms; ds] =>
          match digits 0 ys, digits 0 ms, digits 0 ds with
          | Some y, Some m, Some d =>
              if (String.length ys =? 4)%nat && (String.length ms =? 2)%nat
                 && (String.length ds =? 2)%nat
                 && (1 <=? m) && (m <=? 12) && (1 <=? d)
                 && (d <=? days_in_month y m)
              then Some (days_from_civil y m d)
              else None
          | _, _, _ => None
          end
      | _ => None
      end
  | _ => None
  end.

Definition f64 (m : positive) (e : Z) : float := S754_finite false m e.

(** A fit that refuses empty input, as the fitter's input check does, and
    otherwise returns four fixed coefficients. *)
Definition sample_fit (penalizer : pyvalue) (frequency recency T : list cell)
  : result Series :=
  match frequency, recency, T with
  | _ :: _, _ :: _, _ :: _ =>
      ret [ (Name "r", PyFloat (f64 4503599627370496 (-53)));
            (Name "alpha", PyFloat (f64 4503599627370496 (-50)));
            (Name "a", PyFloat (f64 4503599627370496 (-52)));
            (Name "b", PyFloat (f64 4503599627370496 (-51))) ]
  | _, _, _ =>
      raise (ValueError "There exists a zero length vector in one of frequency, recency or T.")
  end.

(** A stand-in for the formula: it only records whether the customer
    ever came back. *)
Definition sample_expectation (bgf : BetaGeoFitter) (t frequency recency T : cell)
  : float :=
  match frequency with
  | Num 0 => S754_zero false
  | _ => f64 4503599627370496 (-52)
  end.

Definition sample_lib : Lib :=
  mkLib sample_read_csv sample_to_datetime spec_summary sample_fit
    sample_expectation (fun _ => ret tt).

Definition unlines (ls : list string) : string :=
  String.concat (String newline "") ls.

(** The log of the spec's scenario, as a file. *)
Definition scenario_csv : string :=
  unlines ["customer_id,date"; "C1,2023-01-01"; "C1,2023-02-01"; "C2,2023-01-15"].

(** The same log after ingestion. *)
Definition scenario_frame : DataFrame :=
  mkFrame None [Num 0; Num 1; Num 2]
    [ ("customer_id", [Str "C1"; Str "C1"; Str "C2"]);
      ("date", [Timestamp (days_from_civil 2023 1 1);
                Timestamp (days_from_civil 2023 2 1);
                Timestamp (days_from_civil 2023 1 15)]) ].

(** The cleaned log of the scenario, record by record. *)
Definition scenario_log : list TransactionRecord :=
  [ mkTransaction (Str "C1") (days_from_civil 2023 1 1);
    mkTransaction (Str "C1") (days_from_civil 2023 2 1);
    mkTransaction (Str "C2") (days_from_civil 2023 1 15) ].

(** A fitted model, as [train_model] builds it from the sample fit. *)
Definition sample_model : BetaGeoFitter :=
  mkBetaGeoFitter (PyFloat (f64 7205759403792794 (-56)))
    [ (Name "r", PyFloat (f64 4503599627370496 (-53)));
      (Name "alpha", PyFloat (f64 4503599627370496 (-50)));
      (Name "a", PyFloat (f64 4503599627370496 (-52)));
      (Name "b", PyFloat (f64 4503599627370496 (-51))) ].

(** A file with two good rows and one date that does not parse. *)
Definition one_bad_date_csv : string :=
  unlines ["customer_id,date"; "C1,2023-01-01"; "C1,not-a-date"; "C2,2023-01-15"].

(** The same file as [sample_read_csv] reads it. *)
Definition one_bad_date_frame : DataFrame :=
  mkFrame None [Num 0; Num 1; Num 2]
    [ ("customer_id", [Str "C1"; Str "C1"; Str "C2"]);
      ("date", [Str "2023-01-01"; Str "not-a-date"; Str "2023-01-15"]) ].

(** A file with an extra column and one row without a customer. *)
Definition missing_customer_csv : string :=
  unlines ["customer_id,date,amount"; "C1,2023-01-01,5"; ",2023-01-02,7";
           "C2,2023-01-15,9"].

(** The same file as [sample_read_csv] reads it. *)
Definition missing_customer_frame : DataFrame :=
  mkFrame None [Num 0; Num 1; Num 2]
    [ ("customer_id", [Str "C1"; NA; Str "C2"]);
      ("date", [Str "2023-01-01"; Str "2023-01-02"; Str "2023-01-15"]);
      ("amount", [Str "5"; Str "7"; Str "9"]) ].

(** What ingestion makes of it. *)
Definition missing_customer_cleaned : DataFrame :=
  mkFrame None [Num 0; Num 2]
    [ ("customer_id", [Str "C1"; Str "C2"]);
      ("date", [Timestamp 19358; Timestamp 19372]);
      ("amount", [Str "5"; Str "9"]) ].

(** A summary table without its [recency] column. *)
Definition no_recency_frame : DataFrame :=
  mkFrame (Some "customer_id") [Str "C1"; Str "C2"]
    [ ("frequency", [Num 1; Num 0]); ("T", [Num 31; Num 17]) ].

(** A summary table without rows. *)
Definition empty_summary_frame : DataFrame :=
  mkFrame (Some "customer_id") []
    [ ("frequency", []); ("recency", []); ("T", []) ].

(** A model whose series carries the label [r] twice. *)
Definition repeated_label_model : BetaGeoFitter :=
  mkBetaGeoFitter (PyFloat (f64 7205759403792794 (-56)))
    [ (Name "r", PyFloat (f64 4503599627370496 (-53)));
      (Name "alpha", PyFloat (f64 4503599627370496 (-50)));
      (Name "r", PyFloat (f64 4503599627370496 (-52))) ].

(** A summary table with whole and fractional numbers, whose maxima
    (2.5 and 31) are not in the first row. *)
Definition mixed_summary_frame : DataFrame :=
  mkFrame (Some "customer_id") [Str "C1"; Str "C2"; Str "C3"]
    [ ("frequency", [Num 0; Flt (f64 5 (-1)); Num 1]);
      ("recency", [Num 0; Num 20; Num 3]);
      ("T", [Num 17; Num 31; Flt (f64 61 (-1))]) ].

(** A file with the header line and nothing else. *)
Definition header_only_csv : string := "customer_id,date".

(** 0.1, the nearest binary64 value. *)
Definition one_tenth : float := f64 7205759403792794 (-56).

(** ** Notions used in the statements *)

(** [sub] occurs in [s]. *)
Fixpoint contains (s sub : string) : bool :=
  String.prefix sub s ||
  match s with
  | EmptyString => false
  | String _ s' => contains s' sub
  end.

(** The run showed an error message. *)
Definition reports_error (ui : list ui_event) : Prop :=
  exists msg, In (StError msg) ui.

(** [df] is the cleaned form of the log [log]: its two required columns
    hold the customers and the dates of [log], row by row, and no
    customer is missing. *)
Definition cleaned_log (df : DataFrame) (log : list TransactionRecord) : Prop :=
  getitem df "customer_id" = inr (map customer_id log) /\
  getitem df "date" = inr (map (fun r => Timestamp (date r)) log) /\
  Forall (fun r => isnull (customer_id r) = false) log.

(** [m] is the latest of the dates [ds]. *)
Definition is_latest (m : Z) (ds : list Z) : Prop :=
  In m ds /\ Forall (fun d => d <= m) ds.

(** [m] is the earliest of the dates [ds]. *)
Definition is_earliest (m : Z) (ds : list Z) : Prop :=
  In m ds /\ Forall (fun d => m <= d) ds.

(** The four inequalities of a summary row. *)
Definition row_in_range (r : CustomerSummary) : Prop :=
  recency r <= T r /\ 0 <= frequency r /\ 0 <= recency r /\ 0 <= T r.

(** The first of the three summary columns that a frame lacks. *)
Definition first_missing_column (summary : DataFrame) : option string :=
  find (fun col => negb (has_column summary col)) ["frequency"; "recency"; "T"].

(** [k] is a key of the dictionary [d]. *)
Definition has_key (d : pydict) (k : label) : bool :=
  existsb (label_eqb k) (map fst d).

(** The first of the two keys [load_model_params] reads that a
    dictionary lacks, in the order it reads them. *)
Definition first_missing_key (d : pydict) : option string :=
  find (fun k => negb (has_key d (Name k))) ["penalizer_coef"; "params"].

(** [a <= b] for two numeric cells, by value. *)
Definition num_leb (a b : cell) : bool :=
  match number a, number b with
  | Some u, Some v => negb (extended_ltb v u)
  | _, _ => false
  end.

(** [m] is a maximum of the column [s]: a value of [s] that is not
    missing and that no value of [s] exceeds. *)
Definition column_max (s : list cell) (m : cell) : Prop :=
  In m s /\ isnull m = false
  /\ forall c, In c s -> isnull c = false -> num_leb c m = true.

(** A cell that holds a finite number. *)
Definition finite_cell (c : cell) : bool :=
  match number c with
  | Some (Finite _) => true
  | _ => false
  end.

(** A numeric column: finite numbers and missing values. *)
Definition finite_column (s : list cell) : Prop :=
  Forall (fun c => isnull c = true \/ finite_cell c = true) s.

(** The observation cutoff of a log: its latest date. *)
Definition cutoff_of (log : list TransactionRecord) : Z :=
  last_date (map date log).

(** The library's summary routine is the one modelled from the spec. *)
Definition summarizes_as_specified (L : Lib) : Prop :=
  summary_data_from_transaction_data L = spec_summary.

(** The library's summary routine returns tables with exactly the columns
    [frequency], [recency], [T]. *)
Definition summary_columns (L : Lib) : Prop :=
  forall transactions id_col date_col period_end summary,
    summary_data_from_transaction_data L transactions id_col date_col period_end
    = inr summary ->
    column_names summary = ["frequency"; "recency"; "T"].

(** The labels of a series name one coefficient each. *)
Definition named_coefficients (s : Series) : Prop := NoDup (map fst s).

(** The entry [name] of an archive. *)
Fixpoint entry (name : string) (zip_file : ZipFile) : option entry_data :=
  match zip_file with
  | [] => None
  | (n, d) :: z => if String.eqb name n then Some d else entry name z
  end.

(** The same library, except that its summary routine returns a table
    without rows where the other one raises. *)
Definition lenient_lib : Lib :=
  mkLib sample_read_csv sample_to_datetime
    (fun transactions id_col date_col period_end =>
       match spec_summary transactions id_col date_col period_end with
       | inl _ => ret (summary_frame id_col [])
       | inr summary => ret summary
       end)
    sample_fit sample_expectation (fun _ => ret tt).

(** The archive of the scenario's run. *)
Definition scenario_export : ZipFile :=
  export_zip sample_model
    (setitem
       (summary_frame "customer_id" (summarize scenario_log (cutoff_of scenario_log)))
       "predicted_transactions"
       [Flt (f64 4503599627370496 (-52)); Flt (S754_zero false)]).

(** * Properties *)

(** An event that is not in an explicit list of events. *)
Ltac no_such_event H :=
  simpl in H; repeat (destruct H as [H | H]; [discriminate|]); contradiction.

(** ** Equality tests *)

Lemma float_eqb_eq (x y : float) : float_eqb x y = true <-> x = y.
Proof.
  destruct x as [s| s| |s m e], y as [s'| s'| |s' m' e']; simpl;
    try (split; [discriminate | congruence]);
    try (rewrite Bool.eqb_true_iff; split; congruence).
  - tauto.
  - rewrite !andb_true_iff, Bool.eqb_true_iff, Pos.eqb_eq, Z.eqb_eq.
    split; [intros [[-> ->] ->]; reflexivity | intros [= -> -> ->]; auto].
Qed.

Lemma cell_eqb_eq (a b : cell) : cell_eqb a b = true <-> a = b.
Proof.
  destruct a, b; simpl; try (split; [discriminate | congruence]).
  - tauto.
  - rewrite String.eqb_eq. split; congruence.
  - rewrite Z.eqb_eq. split; congruence.
  - rewrite Z.eqb_eq. split; congruence.
  - rewrite float_eqb_eq. split; congruence.
Qed.

Lemma cell_eqb_refl (c : cell) : cell_eqb c c = true.
Proof. apply cell_eqb_eq. reflexivity. Qed.

Lemma label_eqb_eq (a b : label) : label_eqb a b = true <-> a = b.
Proof.
  destruct a, b; simpl; try (split; [discriminate | congruence]).
  - rewrite String.eqb_eq. split; congruence.
  - rewrite Z.eqb_eq. split; congruence.
Qed.

Lemma label_eqb_neq (a b : label) : a <> b -> label_eqb a b = false.
Proof.
  intros Hab. destruct (label_eqb a b) eqn:E; [|reflexivity].
  apply label_eqb_eq in E. contradiction.
Qed.

(** ** The latest date of a column *)

Lemma is_latest_unique (m m' : Z) (ds : list Z) :
  is_latest m ds -> is_latest m' ds -> m = m'.
Proof.
  intros [Hin Hub] [Hin' Hub'].
  rewrite Forall_forall in Hub, Hub'.
  apply Hub' in Hin. apply Hub in Hin'. lia.
Qed.

Lemma fold_max_bounds (b : Z) (ds : list Z) :
  let m := fold_right Z.max b ds in
  (m = b \/ In m ds) /\ b <= m /\ Forall (fun d => d <= m) ds.
Proof.
  induction ds as [|d ds IH]; simpl.
  - repeat split; auto; lia.
  - destruct IH as [Hin [Hb Hall]].
    set (m := fold_right Z.max b ds) in *.
    repeat split.
    + destruct (Z.max_spec d m) as [[_ ->] | [_ ->]]; [tauto | auto].
    + lia.
    + constructor; [lia|].
      eapply Forall_impl; [|exact Hall]. simpl. intros; lia.
Qed.

Lemma fold_min_bounds (b : Z) (ds : list Z) :
  let m := fold_right Z.min b ds in
  (m = b \/ In m ds) /\ m <= b /\ Forall (fun d => m <= d) ds.
Proof.
  induction ds as [|d ds IH]; simpl.
  - repeat split; auto; lia.
  - destruct IH as [Hin [Hb Hall]].
    set (m := fold_right Z.min b ds) in *.
    repeat split.
    + destruct (Z.min_spec d m) as [[_ ->] | [_ ->]]; [auto | tauto].
    + lia.
    + constructor; [lia|].
      eapply Forall_impl; [|exact Hall]. simpl. intros; lia.
Qed.

Lemma last_date_latest (ds : list Z) : ds <> [] -> is_latest (last_date ds) ds.
Proof.
  destruct ds as [|d ds]; [congruence|]. intros _.
  unfold last_date.
  destruct (fold_max_bounds (hd 0 (d :: ds)) (d :: ds)) as [Hin [_ Hall]].
  split; [|exact Hall].
  destruct Hin as [-> | Hin]; [left; reflexivity | exact Hin].
Qed.

Lemma first_date_earliest (ds : list Z) :
  ds <> [] -> is_earliest (first_date ds) ds.
Proof.
  destruct ds as [|d ds]; [congruence|]. intros _.
  unfold first_date.
  destruct (fold_min_bounds (hd 0 (d :: ds)) (d :: ds)) as [Hin [_ Hall]].
  split; [|exact Hall].
  destruct Hin as [-> | Hin]; [left; reflexivity | exact Hin].
Qed.

Lemma series_max_from_timestamps (ds : list Z) (a : Z) :
  exists m, series_max_from (Timestamp a) (map Timestamp ds) = inr (Timestamp m)
            /\ (m = a \/ In m ds) /\ a <= m /\ Forall (fun d => d <= m) ds.
Proof.
  revert a. induction ds as [|d ds IH]; intros a; simpl.
  - exists a. repeat split; auto; lia.
  - destruct (IH (Z.max a d)) as [m [Hm [Hin [Hle Hall]]]].
    exists m. split; [exact Hm|]. repeat split.
    + destruct Hin as [-> | Hin]; [|auto].
      destruct (Z.max_spec a d) as [[_ ->] | [_ ->]]; auto.
    + lia.
    + constructor; [lia | exact Hall].
Qed.

Lemma series_max_timestamps (ds : list Z) :
  ds <> [] ->
  series_max (map Timestamp ds) = inr (Timestamp (last_date ds)).
Proof.
  intros Hne. destruct ds as [|d ds]; [congruence|].
  unfold series_max. simpl.
  destruct (series_max_from_timestamps ds d) as [m [Hm [Hin [Hle Hall]]]].
  rewrite Hm. do 2 f_equal.
  apply (is_latest_unique m (last_date (d :: ds)) (d :: ds)).
  - split; [destruct Hin as [-> | Hin]; simpl; auto | constructor; assumption].
  - apply last_date_latest. discriminate.
Qed.

(** ** The summary of a cleaned log *)

Lemma transaction_log_cleaned (log : list TransactionRecord) :
  Forall (fun r => isnull (customer_id r) = false) log ->
  transaction_log (map customer_id log) (map (fun r => Timestamp (date r)) log)
  = log.
Proof.
  induction 1 as [|r log Hr _ IH]; simpl; [reflexivity|].
  rewrite Hr, IH. destruct r; reflexivity.
Qed.

Lemma distinct_incl (ids : list cell) (c : cell) :
  In c (distinct ids) -> In c ids.
Proof.
  induction ids as [|x ids IH]; simpl; [tauto|].
  intros [-> | Hin]; [auto|].
  apply filter_In in Hin. right. apply IH, Hin.
Qed.

Lemma distinct_complete (ids : list cell) (c : cell) :
  In c ids -> In c (distinct ids).
Proof.
  induction ids as [|x ids IH]; simpl; [tauto|].
  intros [-> | Hin]; [auto|].
  destruct (cell_eqb c x) eqn:E.
  - apply cell_eqb_eq in E. auto.
  - right. apply filter_In. split; [auto | rewrite E; reflexivity].
Qed.

Lemma distinct_NoDup (ids : list cell) : NoDup (distinct ids).
Proof.
  induction ids as [|x ids IH]; simpl; constructor.
  - intros Hin. apply filter_In in Hin. destruct Hin as [_ Hne].
    rewrite cell_eqb_refl in Hne. discriminate.
  - apply NoDup_filter, IH.
Qed.

Lemma dates_of_incl (c : cell) (log : list TransactionRecord) (d : Z) :
  In d (dates_of c log) -> In d (map date log).
Proof.
  unfold dates_of. rewrite !in_map_iff.
  intros [r [Hd Hin]]. apply filter_In in Hin. exists r. tauto.
Qed.

Lemma dates_of_nonempty (c : cell) (log : list TransactionRecord) :
  In c (map customer_id log) -> dates_of c log <> [].
Proof.
  rewrite in_map_iff. intros [r [Hc Hin]] Hnil.
  assert (Hd : In (date r) (dates_of c log)).
  { unfold dates_of. apply in_map, filter_In. split; [exact Hin|].
    rewrite Hc. apply cell_eqb_refl. }
  rewrite Hnil in Hd. exact Hd.
Qed.

Lemma summarize_customer_in_range (log : list TransactionRecord) (c : cell) :
  In c (map customer_id log) ->
  row_in_range (summarize_customer log (cutoff_of log) c).
Proof.
  intros Hc. pose proof (dates_of_nonempty c log Hc) as Hne.
  destruct (last_date_latest _ Hne) as [Hlast_in Hlast].
  destruct (first_date_earliest _ Hne) as [Hfirst_in Hfirst].
  assert (Hlog : map date log <> []).
  { intros Hnil. apply dates_of_incl in Hlast_in. rewrite Hnil in Hlast_in.
    exact Hlast_in. }
  destruct (last_date_latest _ Hlog) as [_ Hcut].
  rewrite Forall_forall in Hfirst, Hcut.
  pose proof (Hfirst _ Hlast_in) as H1.
  pose proof (Hcut _ (dates_of_incl _ _ _ Hlast_in)) as H2.
  unfold row_in_range, summarize_customer, cutoff_of; simpl.
  destruct (dates_of c log) as [|d ds] eqn:E; [congruence|].
  simpl List.length. lia.
Qed.

Lemma transform_cleaned (L : Lib) (df : DataFrame) (log : list TransactionRecord) :
  summarizes_as_specified L ->
  cleaned_log df log ->
  log <> [] ->
  transform L df
  = inr (summary_frame "customer_id" (summarize log (cutoff_of log))).
Proof.
  intros HL [Hids [Hdates Hclean]] Hne.
  unfold transform. rewrite Hdates. simpl.
  rewrite <- (map_map date Timestamp).
  rewrite series_max_timestamps
    by (destruct log; [congruence | discriminate]).
  simpl. rewrite HL. unfold spec_summary.
  rewrite Hids, Hdates. simpl.
  rewrite (transaction_log_cleaned log Hclean).
  destruct log; [congruence | reflexivity].
Qed.

(** Ingestion of the scenario's file gives the scenario's frame. *)
Example scenario_ingested :
  load_and_preprocess_data sample_lib scenario_csv []
  = ([], inr (Some scenario_frame)).
Proof. reflexivity. Qed.

(** C1: for the log [(C1, 2023-01-01), (C1, 2023-02-01), (C2, 2023-01-15)]
    the observation cutoff that [main] passes is the latest date,
    2023-02-01, and the summary has exactly two rows: C1 with frequency 1,
    recency 31 and T 31, and C2 with frequency 0, recency 0 and T 17. *)
Theorem scenario_summary (L : Lib) :
  summarizes_as_specified L ->
  (date <- getitem scenario_frame "date" ;; series_max date)
  = inr (Timestamp (days_from_civil 2023 2 1))
  /\ transform L scenario_frame
     = inr (mkFrame (Some "customer_id") [Str "C1"; Str "C2"]
              [ ("frequency", [Num 1; Num 0]);
                ("recency", [Num 31; Num 0]);
                ("T", [Num 31; Num 17]) ]).
Proof.
  intros HL. split; [reflexivity|].
  unfold transform. simpl. rewrite HL. reflexivity.
Qed.

Lemma scenario_summary_witness :
  summarizes_as_specified sample_lib
  /\ transform sample_lib scenario_frame
     = inr (mkFrame (Some "customer_id") [Str "C1"; Str "C2"]
              [ ("frequency", [Num 1; Num 0]);
                ("recency", [Num 31; Num 0]);
                ("T", [Num 31; Num 17]) ]).
Proof.
  split; [reflexivity|].
  apply (scenario_summary sample_lib). reflexivity.
Defined.

(** C2: for every cleaned, non-empty log the summary is produced, with
    one row per distinct customer, and every row has recency <= T,
    frequency >= 0, recency >= 0 and T >= 0. *)
Theorem summary_rows_in_range (L : Lib) (df : DataFrame)
  (log : list TransactionRecord) :
  summarizes_as_specified L ->
  cleaned_log df log ->
  log <> [] ->
  exists rows,
    transform L df = inr (summary_frame "customer_id" rows)
    /\ map customer rows = distinct (map customer_id log)
    /\ Forall (fun r => recency r <= T r /\ 0 <= frequency r
                        /\ 0 <= recency r /\ 0 <= T r) rows.
Proof.
  intros HL Hclean Hne.
  exists (summarize log (cutoff_of log)). split; [|split].
  - apply transform_cleaned; assumption.
  - unfold summarize. rewrite map_map. simpl. apply map_id.
  - unfold summarize. apply Forall_map, Forall_forall. intros c Hc.
    apply summarize_customer_in_range, distinct_incl, Hc.
Qed.

Lemma scenario_cleaned : cleaned_log scenario_frame scenario_log.
Proof.
  repeat split; repeat constructor.
Defined.

Lemma summary_rows_in_range_witness :
  exists rows,
    transform sample_lib scenario_frame = inr (summary_frame "customer_id" rows)
    /\ map customer rows = distinct (map customer_id scenario_log)
    /\ Forall (fun r => recency r <= T r /\ 0 <= frequency r
                        /\ 0 <= recency r /\ 0 <= T r) rows.
Proof.
  apply (summary_rows_in_range sample_lib scenario_frame scenario_log).
  - reflexivity.
  - exact scenario_cleaned.
  - discriminate.
Defined.

(** C3: a customer with exactly one transaction in the cleaned log, on
    day [d], gets the row frequency = 0, recency = 0 and
    T = cutoff - [d], and no other row belongs to that customer. *)
Theorem single_transaction_customer (L : Lib) (df : DataFrame)
  (log : list TransactionRecord) (c : cell) (d : Z) :
  summarizes_as_specified L ->
  cleaned_log df log ->
  dates_of c log = [d] ->
  exists rows,
    transform L df = inr (summary_frame "customer_id" rows)
    /\ In (mkSummary c 0 0 (cutoff_of log - d)) rows
    /\ forall r, In r rows -> customer r = c ->
         frequency r = 0 /\ recency r = 0 /\ T r = cutoff_of log - d.
Proof.
  intros HL Hclean Hone.
  assert (Hrow : summarize_customer log (cutoff_of log) c
                 = mkSummary c 0 0 (cutoff_of log - d)).
  { unfold summarize_customer. rewrite Hone.
    unfold last_date, first_date. simpl. f_equal; lia. }
  assert (Hc : In c (map customer_id log)).
  { assert (Hd : In d (dates_of c log)) by (rewrite Hone; left; reflexivity).
    unfold dates_of in Hd. apply in_map_iff in Hd.
    destruct Hd as [r [_ Hr]]. apply filter_In in Hr.
    destruct Hr as [Hr Heq]. apply cell_eqb_eq in Heq. subst c.
    apply in_map, Hr. }
  exists (summarize log (cutoff_of log)). split; [|split].
  - apply transform_cleaned; try assumption.
    intros Hnil. rewrite Hnil in Hc. exact Hc.
  - rewrite <- Hrow. unfold summarize. apply in_map, distinct_complete, Hc.
  - intros r Hr Hcust. unfold summarize in Hr. apply in_map_iff in Hr.
    destruct Hr as [c' [Hr _]]. subst r. simpl in Hcust. subst c'.
    rewrite Hrow. simpl. auto.
Qed.

Lemma single_transaction_customer_witness :
  exists rows,
    transform sample_lib scenario_frame = inr (summary_frame "customer_id" rows)
    /\ In (mkSummary (Str "C2") 0 0
             (cutoff_of scenario_log - days_from_civil 2023 1 15)) rows
    /\ forall r, In r rows -> customer r = Str "C2" ->
         frequency r = 0 /\ recency r = 0
         /\ T r = cutoff_of scenario_log - days_from_civil 2023 1 15.
Proof.
  apply (single_transaction_customer sample_lib scenario_frame scenario_log).
  - reflexivity.
  - exact scenario_cleaned.
  - reflexivity.
Defined.

(** ** Ingestion *)

Lemma lookup_assign_same {A} (col : string) (v : A) (l : list (string * A)) :
  lookup col (assign col v l) = Some v.
Proof.
  induction l as [|[k w] l IH]; simpl.
  - rewrite String.eqb_refl. reflexivity.
  - destruct (String.eqb col k) eqn:E; simpl; rewrite E; auto.
Qed.

Lemma lookup_assign_other {A} (col col' : string) (v : A) (l : list (string * A)) :
  col <> col' -> lookup col (assign col' v l) = lookup col l.
Proof.
  intros Hne. apply String.eqb_neq in Hne.
  induction l as [|[k w] l IH]; simpl.
  - rewrite Hne. reflexivity.
  - destruct (String.eqb col' k) eqn:E; simpl.
    + apply String.eqb_eq in E. subst k. rewrite Hne. reflexivity.
    + rewrite IH. reflexivity.
Qed.

Lemma has_column_lookup (df : DataFrame) (col : string) :
  has_column df col = true -> exists v, lookup col (columns df) = Some v.
Proof.
  unfold has_column, column_names.
  induction (columns df) as [|[k w] l IH]; simpl; [discriminate|].
  destruct (String.eqb col k); simpl; eauto.
Qed.

Lemma lookup_has_column (df : DataFrame) (col : string) (v : list cell) :
  lookup col (columns df) = Some v -> has_column df col = true.
Proof.
  unfold has_column, column_names.
  induction (columns df) as [|[k w] l IH]; simpl; [discriminate|].
  destruct (String.eqb col k); simpl; auto.
Qed.

Lemma getitem_inr (df : DataFrame) (col : string) (v : list cell) :
  getitem df col = inr v <-> lookup col (columns df) = Some v.
Proof.
  unfold getitem, ret, raise.
  destruct (lookup col (columns df)); split; congruence.
Qed.

Lemma coerce_all_parsed (L : Lib) (dates : list cell) :
  (forall c, In c dates -> to_datetime L c <> None) ->
  existsb isnull (map (to_datetime_coerce L) dates) = false.
Proof.
  induction dates as [|c dates IH]; intros Hall; simpl; [reflexivity|].
  rewrite IH by (intros c' Hc'; apply Hall; right; exact Hc').
  unfold to_datetime_coerce.
  destruct (to_datetime L c) eqn:E; [reflexivity|].
  exfalso. apply (Hall c); [left; reflexivity | exact E].
Qed.

Lemma coerce_some_unparsed (L : Lib) (dates : list cell) :
  (exists c, In c dates /\ to_datetime L c = None) ->
  existsb isnull (map (to_datetime_coerce L) dates) = true.
Proof.
  intros [c [Hin Hc]]. apply existsb_exists.
  exists (to_datetime_coerce L c). split; [apply in_map, Hin|].
  unfold to_datetime_coerce. rewrite Hc. reflexivity.
Qed.

(** The result of the [try] block when both columns are there: the date
    check, then the cleanup. *)
Lemma load_try_checked (L : Lib) (file : string) (raw : DataFrame)
  (dates : list cell) :
  read_csv L file = inr raw ->
  has_column raw "customer_id" = true ->
  getitem raw "date" = inr dates ->
  load_try L file
  = if existsb isnull (map (to_datetime_coerce L) dates)
    then inl (ValueError date_message)
    else dropna (setitem raw "date" (map (to_datetime_coerce L) dates))
           ["customer_id"; "date"].
Proof.
  intros Hread Hid Hdate. unfold load_try. rewrite Hread. simpl.
  rewrite Hid. apply getitem_inr in Hdate.
  rewrite (lookup_has_column _ _ _ Hdate). simpl.
  unfold getitem at 1. rewrite Hdate. simpl.
  unfold getitem at 1. simpl. rewrite lookup_assign_same. reflexivity.
Qed.

Lemma dropna_required_succeeds (raw : DataFrame) (v : list cell) :
  has_column raw "customer_id" = true ->
  exists df, dropna (setitem raw "date" v) ["customer_id"; "date"] = inr df.
Proof.
  intros Hid. apply has_column_lookup in Hid. destruct Hid as [ids Hids].
  unfold dropna, keep_mask, getitem. simpl.
  rewrite lookup_assign_other by discriminate.
  rewrite Hids, lookup_assign_same. simpl. eauto.
Qed.

(** C4: a table without the column [customer_id] or without the column
    [date] is rejected: the error shown lists the required columns, so it
    names each missing one, and no table is returned. *)
Theorem missing_column_rejected (L : Lib) (file : string) (raw : DataFrame)
  (ui : list ui_event) :
  read_csv L file = inr raw ->
  has_column raw "customer_id" = false \/ has_column raw "date" = false ->
  exists msg,
    msg = "Error loading data: The dataset must contain the following columns: customer_id, date"
    /\ load_and_preprocess_data L file ui = ((ui ++ [StError msg])%list, inr None)
    /\ forall col, In col ["customer_id"; "date"] ->
         has_column raw col = false -> contains msg col = true.
Proof.
  intros Hread Hmissing. eexists. split; [reflexivity|]. split.
  - unfold load_and_preprocess_data, load_try. rewrite Hread. simpl.
    destruct Hmissing as [H | H]; rewrite H; simpl;
      [|rewrite andb_false_r]; reflexivity.
  - intros col [<- | [<- | []]] _; reflexivity.
Qed.

Lemma missing_column_rejected_witness :
  exists msg,
    msg = "Error loading data: The dataset must contain the following columns: customer_id, date"
    /\ load_and_preprocess_data sample_lib
         (unlines ["customer_id,Date"; "C1,2023-01-01"]) []
       = ([StError msg], inr None)
    /\ forall col, In col ["customer_id"; "date"] ->
         has_column
           (mkFrame None [Num 0]
              [("customer_id", [Str "C1"]); ("Date", [Str "2023-01-01"])]) col
         = false ->
         contains msg col = true.
Proof.
  apply (missing_column_rejected sample_lib
           (unlines ["customer_id,Date"; "C1,2023-01-01"])
           (mkFrame None [Num 0]
              [("customer_id", [Str "C1"]); ("Date", [Str "2023-01-01"])]) []).
  - reflexivity.
  - right. reflexivity.
Defined.

(** C5: with both required columns present, one date cell that does not
    parse makes ingestion reject the whole table with the date error and
    return nothing; when every date cell parses, ingestion returns a
    table and shows no error. *)
Theorem date_check_all_or_nothing (L : Lib) (file : string) (raw : DataFrame)
  (dates : list cell) (ui : list ui_event) :
  read_csv L file = inr raw ->
  has_column raw "customer_id" = true ->
  getitem raw "date" = inr dates ->
  ((exists c, In c dates /\ to_datetime L c = None) ->
   load_and_preprocess_data L file ui
   = ((ui ++ [StError "Error loading data: Some date values couldn't be parsed. Please ensure all dates are in a valid format."])%list,
      inr None))
  /\ ((forall c, In c dates -> to_datetime L c <> None) ->
      exists sales_data,
        load_and_preprocess_data L file ui = (ui, inr (Some sales_data))).
Proof.
  intros Hread Hid Hdate.
  pose proof (load_try_checked L file raw dates Hread Hid Hdate) as Htry.
  unfold load_and_preprocess_data. rewrite Htry. split.
  - intros Hbad. rewrite (coerce_some_unparsed L dates Hbad). reflexivity.
  - intros Hgood. rewrite (coerce_all_parsed L dates Hgood).
    destruct (dropna_required_succeeds raw (map (to_datetime_coerce L) dates) Hid)
      as [df Hdf].
    rewrite Hdf. eauto.
Qed.

Lemma date_check_all_or_nothing_witness :
  load_and_preprocess_data sample_lib one_bad_date_csv []
  = ([StError "Error loading data: Some date values couldn't be parsed. Please ensure all dates are in a valid format."],
     inr None)
  /\ exists sales_data,
       load_and_preprocess_data sample_lib scenario_csv []
       = ([], inr (Some sales_data)).
Proof.
  split.
  - apply (date_check_all_or_nothing sample_lib one_bad_date_csv
             one_bad_date_frame
             [Str "2023-01-01"; Str "not-a-date"; Str "2023-01-15"] []);
      try reflexivity.
    exists (Str "not-a-date"). split; [simpl; tauto | reflexivity].
  - apply (date_check_all_or_nothing sample_lib scenario_csv
             (mkFrame None [Num 0; Num 1; Num 2]
                [ ("customer_id", [Str "C1"; Str "C1"; Str "C2"]);
                  ("date", [Str "2023-01-01"; Str "2023-02-01"; Str "2023-01-15"]) ])
             [Str "2023-01-01"; Str "2023-02-01"; Str "2023-01-15"] []);
      try reflexivity.
    intros c [<- | [<- | [<- | []]]]; discriminate.
Defined.

(** ** What ingestion returns *)

Lemma lookup_map_values {A B} (f : A -> B) (col : string) (l : list (string * A)) :
  lookup col (map (fun kv => (fst kv, f (snd kv))) l)
  = option_map f (lookup col l).
Proof.
  induction l as [|[k v] l IH]; simpl; [reflexivity|].
  destruct (String.eqb col k); [reflexivity | exact IH].
Qed.

Lemma lookup_In {A} (col : string) (l : list (string * A)) (v : A) :
  lookup col l = Some v -> In (col, v) l.
Proof.
  induction l as [|[k w] l IH]; simpl; [discriminate|].
  destruct (String.eqb col k) eqn:E.
  - apply String.eqb_eq in E. intros [= <-]. subst k. auto.
  - auto.
Qed.

Lemma coerce_timestamps (L : Lib) (dates : list cell) :
  existsb isnull (map (to_datetime_coerce L) dates) = false ->
  exists ts, map (to_datetime_coerce L) dates = map Timestamp ts.
Proof.
  induction dates as [|c dates IH]; simpl; intros Hnone.
  - exists []. reflexivity.
  - apply orb_false_iff in Hnone. destruct Hnone as [Hc Hrest].
    destruct (IH Hrest) as [ts Hts]. unfold to_datetime_coerce in Hc |- *.
    destruct (to_datetime L c) as [d|]; [|discriminate].
    exists (d :: ts). simpl. rewrite <- Hts. reflexivity.
Qed.

Lemma select_cleaned (ids : list cell) (ts : list Z) (idx : list cell) :
  List.length ids = List.length ts ->
  List.length ts = List.length idx ->
  let m := zip_and (map notnull ids)
             (zip_and (map notnull (map Timestamp ts))
                (map (fun _ => true) idx)) in
  exists log,
    select m ids = map customer_id log
    /\ select m (map Timestamp ts) = map (fun r => Timestamp (date r)) log
    /\ Forall (fun r => isnull (customer_id r) = false) log.
Proof.
  revert ts idx. induction ids as [|c ids IH]; intros [|t ts] [|i idx];
    simpl; try discriminate; intros Hlen1 Hlen2.
  - exists []. repeat split; constructor.
  - injection Hlen1 as Hlen1. injection Hlen2 as Hlen2.
    destruct (IH ts idx Hlen1 Hlen2) as [log [Hids [Hdates Hclean]]].
    replace (notnull c) with (negb (isnull c)) by reflexivity.
    destruct (isnull c) eqn:Hc; simpl.
    + exists log. repeat split; assumption.
    + exists (mkTransaction c t :: log). simpl. rewrite Hids, Hdates.
      repeat split. constructor; assumption.
Qed.

(** Ingestion returns cleaned logs: when [read_csv] gives a well-formed
    frame and the checks pass, the frame returned holds, row by row, the
    customers and the parsed dates of a log without missing customers. *)
Lemma ingestion_gives_cleaned_log (L : Lib) (file : string)
  (raw df : DataFrame) :
  read_csv L file = inr raw ->
  well_formed raw ->
  load_try L file = inr df ->
  exists log, cleaned_log df log.
Proof.
  intros Hread Hwf Hload. unfold load_try in Hload. rewrite Hread in Hload.
  simpl in Hload.
  destruct (has_column raw "customer_id") eqn:Hid; [|discriminate].
  destruct (has_column raw "date") eqn:Hdate; [|discriminate].
  simpl in Hload.
  destruct (has_column_lookup _ _ Hid) as [ids Hids].
  destruct (has_column_lookup _ _ Hdate) as [dates Hdates].
  unfold getitem at 1 in Hload. rewrite Hdates in Hload. simpl in Hload.
  unfold getitem at 1 in Hload. simpl in Hload.
  rewrite lookup_assign_same in Hload. simpl in Hload.
  destruct (existsb isnull (map (to_datetime_coerce L) dates)) eqn:Hnull;
    [discriminate|].
  destruct (coerce_timestamps L dates Hnull) as [ts Hts].
  rewrite Hts in Hload.
  unfold dropna, keep_mask, getitem in Hload. simpl in Hload.
  rewrite lookup_assign_other in Hload by discriminate.
  rewrite Hids, lookup_assign_same in Hload. simpl in Hload.
  injection Hload as <-.
  unfold well_formed in Hwf. rewrite Forall_forall in Hwf.
  pose proof (Hwf _ (lookup_In _ _ _ Hids)) as Hlen_ids.
  pose proof (Hwf _ (lookup_In _ _ _ Hdates)) as Hlen_dates.
  simpl in Hlen_ids, Hlen_dates. unfold nrows in *.
  assert (Hlen_ts : List.length ts = List.length dates).
  { rewrite <- (length_map Timestamp ts), <- Hts. apply length_map. }
  destruct (select_cleaned ids ts (index raw)) as [log [Hsel_ids [Hsel_ts Hclean]]];
    [congruence | congruence |].
  exists log. unfold cleaned_log, getitem. simpl.
  rewrite !lookup_map_values, lookup_assign_same.
  rewrite lookup_assign_other by discriminate. rewrite Hids. simpl.
  rewrite Hsel_ids, Hsel_ts. auto.
Qed.

(** ** A table without rows *)

Lemma main_after_ingestion (L : Lib) (file : string) (df : DataFrame)
  (penalizer : float) (time_period : Z) (ui : list ui_event) :
  load_try L file = inr df ->
  main L (Some file) penalizer time_period ui
  = run_pipeline L df penalizer time_period
      (ui ++ [StTitle "Customer Lifetime Value Prediction with BG/NBD Model"])%list.
Proof.
  intros Hload. unfold main, st_bind, emit, load_and_preprocess_data.
  rewrite Hload. reflexivity.
Qed.

(** C6, as stated, fails: for the file that holds the header line only,
    ingestion passes both checks and returns a table without rows, and
    the run shows no error message at all. *)
Lemma header_only_not_reported :
  load_and_preprocess_data sample_lib header_only_csv []
  = ([], inr (Some (mkFrame None [] [("customer_id", []); ("date", [])])))
  /\ ~ reports_error (shown (main sample_lib (Some header_only_csv) one_tenth 60)).
Proof.
  split; [reflexivity|].
  intros [msg Hin]. vm_compute in Hin.
  repeat (destruct Hin as [Hin | Hin]; [discriminate|]). exact Hin.
Qed.

(** C6, amended: a table that passes the schema and the date check and
    keeps no row after the cleanup does not fail ingestion:
    [load_and_preprocess_data] shows no error and returns the table
    without rows, and [main] goes on to the summary step with it. *)
Theorem empty_table_passes_ingestion (L : Lib) (file : string)
  (raw df : DataFrame) (dates : list cell) (penalizer : float)
  (time_period : Z) (ui : list ui_event) :
  read_csv L file = inr raw ->
  has_column raw "customer_id" = true ->
  getitem raw "date" = inr dates ->
  (forall c, In c dates -> to_datetime L c <> None) ->
  dropna (setitem raw "date" (map (to_datetime_coerce L) dates))
    ["customer_id"; "date"] = inr df ->
  nrows df = 0%nat ->
  load_and_preprocess_data L file ui = (ui, inr (Some df))
  /\ main L (Some file) penalizer time_period ui
     = run_pipeline L df penalizer time_period
         (ui ++ [StTitle "Customer Lifetime Value Prediction with BG/NBD Model"])%list.
Proof.
  intros Hread Hid Hdate Hgood Hdrop _.
  assert (Hload : load_try L file = inr df).
  { rewrite (load_try_checked L file raw dates Hread Hid Hdate).
    rewrite (coerce_all_parsed L dates Hgood). exact Hdrop. }
  split.
  - unfold load_and_preprocess_data. rewrite Hload. reflexivity.
  - apply main_after_ingestion, Hload.
Qed.

Lemma empty_table_passes_ingestion_witness :
  load_and_preprocess_data sample_lib
    (unlines ["customer_id,date"; ",2023-01-01"]) []
  = ([], inr (Some (mkFrame None [] [("customer_id", []); ("date", [])])))
  /\ main sample_lib (Some (unlines ["customer_id,date"; ",2023-01-01"]))
       one_tenth 60 []
     = run_pipeline sample_lib
         (mkFrame None [] [("customer_id", []); ("date", [])]) one_tenth 60
         [StTitle "Customer Lifetime Value Prediction with BG/NBD Model"].
Proof.
  apply (empty_table_passes_ingestion sample_lib
           (unlines ["customer_id,date"; ",2023-01-01"])
           (mkFrame None [Num 0]
              [("customer_id", [NA]); ("date", [Str "2023-01-01"])])
           (mkFrame None [] [("customer_id", []); ("date", [])])
           [Str "2023-01-01"] one_tenth 60 []);
    try reflexivity.
  intros c [<- | []]. discriminate.
Defined.

(** ** Saving and loading the model *)

Lemma dict_setitem_fresh (d : pydict) (k : label) (v : pyvalue) :
  ~ In k (map fst d) -> dict_setitem d k v = (d ++ [(k, v)])%list.
Proof.
  induction d as [|[k' w] d IH]; simpl; intros Hfresh; [reflexivity|].
  rewrite label_eqb_neq by (intros ->; apply Hfresh; auto).
  rewrite IH by tauto. reflexivity.
Qed.

Lemma to_dict_from (s : Series) (d : pydict) :
  NoDup (map fst (d ++ s)%list) ->
  fold_left (fun d kv => dict_setitem d (fst kv) (snd kv)) s d = (d ++ s)%list.
Proof.
  revert d. induction s as [|[k v] s IH]; intros d Hnd; simpl.
  - rewrite app_nil_r. reflexivity.
  - rewrite dict_setitem_fresh.
    + rewrite IH; rewrite <- app_assoc; [reflexivity | exact Hnd].
    + rewrite map_app in Hnd. simpl in Hnd.
      apply NoDup_remove_2 in Hnd. intros Hin. apply Hnd.
      apply in_or_app. left. exact Hin.
Qed.

(** A series whose labels are distinct is its own dictionary. *)
Lemma to_dict_named (s : Series) : named_coefficients s -> to_dict s = s.
Proof.
  intros Hnd. unfold to_dict. rewrite to_dict_from; [reflexivity | exact Hnd].
Qed.

(** C7: saving a fitted model with [save_model_params] and loading the
    result with [load_model_params] gives a model with the same named
    coefficients and the same penalizer coefficient, and with the same
    prediction for every horizon, frequency, recency and T. *)
Theorem model_params_round_trip (bgf : BetaGeoFitter) :
  named_coefficients (params_ bgf) ->
  exists bgf',
    load_model_params (save_model_params bgf) = inr bgf'
    /\ params_ bgf' = params_ bgf
    /\ penalizer_coef bgf' = penalizer_coef bgf
    /\ forall (L : Lib) (t frequency recency T : cell),
         conditional_expected_number_of_purchases_up_to_time
           L bgf' t frequency recency T
         = conditional_expected_number_of_purchases_up_to_time
             L bgf t frequency recency T.
Proof.
  intros Hnamed. exists bgf.
  split; [|repeat split].
  unfold load_model_params, save_model_params. simpl.
  rewrite (to_dict_named _ Hnamed). destruct bgf; reflexivity.
Qed.

Lemma model_params_round_trip_witness :
  exists bgf',
    load_model_params (save_model_params sample_model) = inr bgf'
    /\ params_ bgf' = params_ sample_model
    /\ penalizer_coef bgf' = penalizer_coef sample_model
    /\ forall (L : Lib) (t frequency recency T : cell),
         conditional_expected_number_of_purchases_up_to_time
           L bgf' t frequency recency T
         = conditional_expected_number_of_purchases_up_to_time
             L sample_model t frequency recency T.
Proof.
  apply (model_params_round_trip sample_model).
  unfold named_coefficients. simpl.
  repeat constructor; simpl; intuition discriminate.
Defined.

(** ** The maximum of a numeric column *)

Lemma extended_ltb_asym (a b : extended) :
  extended_ltb a b = true -> extended_ltb b a = false.
Proof.
  destruct a as [|p|], b as [|q|]; simpl; try reflexivity; try discriminate.
  rewrite !negb_true_iff, negb_false_iff, Qle_bool_iff.
  intros Hnot. apply Qlt_le_weak, Qnot_le_lt.
  intros Hle. apply Qle_bool_iff in Hle. congruence.
Qed.

Lemma extended_leb_refl (a : extended) : extended_ltb a a = false.
Proof.
  destruct a as [|p|]; simpl; try reflexivity.
  rewrite negb_false_iff, Qle_bool_iff. apply Qle_refl.
Qed.

Lemma extended_leb_trans (a b c : extended) :
  extended_ltb b a = false -> extended_ltb c b = false ->
  extended_ltb c a = false.
Proof.
  destruct a as [|p|], b as [|q|], c as [|r|]; simpl;
    try reflexivity; try discriminate.
  rewrite !negb_false_iff, !Qle_bool_iff. apply Qle_trans.
Qed.

Lemma num_leb_refl (c : cell) : number c <> None -> num_leb c c = true.
Proof.
  unfold num_leb. destruct (number c) as [u|]; [|congruence].
  intros _. rewrite extended_leb_refl. reflexivity.
Qed.

Lemma num_leb_trans (a b c : cell) :
  num_leb a b = true -> num_leb b c = true -> num_leb a c = true.
Proof.
  unfold num_leb.
  destruct (number a) as [u|], (number b) as [v|], (number c) as [w|];
    try discriminate.
  rewrite !negb_true_iff. apply extended_leb_trans.
Qed.

(** The larger of two numbers is one of them and exceeds both. *)
Lemma cell_max_numbers (a b : cell) :
  number a <> None -> number b <> None ->
  exists m, cell_max a b = Some m /\ (m = a \/ m = b)
            /\ num_leb a m = true /\ num_leb b m = true.
Proof.
  intros Ha Hb.
  assert (Hmax : cell_max a b
                 = match number a, number b with
                   | Some u, Some v => Some (if extended_ltb u v then b else a)
                   | _, _ => None
                   end).
  { destruct a, b; try reflexivity; simpl in Ha, Hb; congruence. }
  rewrite Hmax. unfold num_leb.
  destruct (number a) as [u|] eqn:Eu; [|congruence].
  destruct (number b) as [v|] eqn:Ev; [|congruence].
  destruct (extended_ltb u v) eqn:Hlt.
  - exists b. rewrite ?Eu, ?Ev. repeat split; auto.
    + rewrite (extended_ltb_asym _ _ Hlt). reflexivity.
    + rewrite extended_leb_refl. reflexivity.
  - exists a. rewrite ?Eu, ?Ev. repeat split; auto.
    + rewrite extended_leb_refl. reflexivity.
    + rewrite Hlt. reflexivity.
Qed.

Lemma series_max_from_numbers (s : list cell) (acc : cell) :
  number acc <> None ->
  isnull acc = false ->
  Forall (fun c => isnull c = true \/ number c <> None) s ->
  exists r,
    series_max_from acc s = inr r
    /\ (r = acc \/ In r s)
    /\ isnull r = false
    /\ num_leb acc r = true
    /\ forall c, In c s -> isnull c = false -> num_leb c r = true.
Proof.
  intros Hacc Hnull Hs. revert acc Hacc Hnull.
  induction Hs as [|c s Hc _ IH]; intros acc Hacc Hnull; simpl.
  - exists acc. split; [reflexivity|]. split; [left; reflexivity|].
    split; [exact Hnull|]. split; [apply num_leb_refl, Hacc|].
    intros c [].
  - destruct (isnull c) eqn:Ec.
    + destruct (IH acc Hacc Hnull) as [r [Hr [Hin [Hrn [Hle Hall]]]]].
      exists r. split; [exact Hr|]. split; [tauto|].
      split; [exact Hrn|]. split; [exact Hle|].
      intros c' [<- | Hc'] Hn; [congruence | auto].
    + rewrite Hnull. destruct Hc as [Hc | Hc]; [congruence|].
      destruct (cell_max_numbers acc c Hacc Hc) as [m [Hm [Hwhich [Hla Hlc]]]].
      rewrite Hm.
      assert (Hmn : number m <> None /\ isnull m = false)
        by (destruct Hwhich as [-> | ->]; auto).
      destruct (IH m (proj1 Hmn) (proj2 Hmn)) as [r [Hr [Hin [Hrn [Hle Hall]]]]].
      exists r. split; [exact Hr|]. split; [|split; [exact Hrn|split]].
      * destruct Hin as [-> | Hin]; [|tauto].
        destruct Hwhich as [-> | ->]; tauto.
      * apply (num_leb_trans _ _ _ Hla Hle).
      * intros c' [<- | Hc'] Hn; [apply (num_leb_trans _ _ _ Hlc Hle) | auto].
Qed.

(** [Series.max()] of a numeric column with a value is a maximum of the
    column. *)
Lemma series_max_numbers (s : list cell) :
  Forall (fun c => isnull c = true \/ number c <> None) s ->
  (exists c, In c s /\ isnull c = false) ->
  exists r, series_max s = inr r /\ column_max s r.
Proof.
  unfold series_max, column_max. intros Hs.
  induction Hs as [|c s Hc Hs IH]; intros [c0 [Hin Hn]]; [destruct Hin|].
  simpl. destruct (isnull c) eqn:Ec.
  - destruct IH as [r [Hr [Hrin [Hrn Hall]]]].
    { destruct Hin as [-> | Hin]; [congruence | eauto]. }
    exists r. split; [exact Hr|]. split; [right; exact Hrin|].
    split; [exact Hrn|].
    intros c' [<- | Hc'] Hn'; [congruence | auto].
  - destruct Hc as [Hc | Hc]; [congruence|].
    destruct (series_max_from_numbers s c Hc Ec Hs)
      as [r [Hr [Hrin [Hrn [Hle Hall]]]]].
    exists r. split; [exact Hr|].
    split; [destruct Hrin as [-> | Hrin]; [left; reflexivity | right; exact Hrin]|].
    split; [exact Hrn|].
    intros c' [<- | Hc'] Hn'; auto.
Qed.

Lemma finite_column_numbers (s : list cell) :
  finite_column s -> Forall (fun c => isnull c = true \/ number c <> None) s.
Proof.
  apply Forall_impl. intros c [Hc | Hc]; [auto|]. right.
  unfold finite_cell in Hc. destruct (number c); [discriminate | discriminate].
Qed.

(** ** [int()] of a number *)

Lemma truncate_whole (z : Z) : truncate (inject_Z z) = z.
Proof.
  unfold truncate. destruct (Qle_bool (inject_Z 0) (inject_Z z));
    [apply Qfloor_Z | apply Qceiling_Z].
Qed.

Lemma truncate_comp (p q : Q) : Qeq p q -> truncate p = truncate q.
Proof.
  intros Heq. unfold truncate.
  rewrite (Qleb_comp _ _ (Qeq_refl (inject_Z 0)) _ _ Heq).
  rewrite (Qfloor_comp _ _ Heq), (Qceiling_comp _ _ Heq). reflexivity.
Qed.

Lemma pos_pow_two (e : Z) : e < 0 -> Z.pos (2 ^ Z.to_pos (- e)) = 2 ^ (- e).
Proof.
  intros He. rewrite Pos2Z.inj_pow, Z2Pos.id by lia. reflexivity.
Qed.

(** [int()] of a finite number is its value cut towards zero. *)
Lemma py_int_truncate (c : cell) (q : Q) :
  number c = Some (Finite q) -> py_int c = inr (truncate q).
Proof.
  destruct c as [| |d|n|x]; try discriminate.
  - intros [= <-]. unfold py_int, ret. f_equal. symmetry.
    apply truncate_whole.
  - destruct x as [s|s| |s m e]; try discriminate.
    + intros [= <-]. reflexivity.
    + destruct s; discriminate.
    + unfold number, float_value, py_int, ret. intros [= <-]. f_equal.
      destruct (0 <=? e) eqn:He.
      * destruct s; symmetry.
        -- apply (truncate_whole (- (Z.pos m * 2 ^ e))).
        -- apply (truncate_whole (Z.pos m * 2 ^ e)).
      * apply Z.leb_gt in He. rewrite <- (pos_pow_two e He).
        destruct s; reflexivity.
Qed.

(** Two maxima of one finite column have the same [int()]. *)
Lemma column_max_int (s : list cell) (a b : cell) :
  finite_column s -> column_max s a -> column_max s b ->
  exists n, py_int a = inr n /\ py_int b = inr n.
Proof.
  intros Hs [Ha [Han Hall]] [Hb [Hbn Hbll]].
  pose proof (Hall b Hb Hbn) as Hba. pose proof (Hbll a Ha Han) as Hab.
  unfold finite_column in Hs. rewrite Forall_forall in Hs.
  assert (Hfa : finite_cell a = true)
    by (destruct (Hs a Ha); [congruence | assumption]).
  assert (Hfb : finite_cell b = true)
    by (destruct (Hs b Hb); [congruence | assumption]).
  unfold finite_cell in Hfa, Hfb. unfold num_leb in Hab, Hba.
  destruct (number a) as [[|p|]|] eqn:Ea; try discriminate.
  destruct (number b) as [[|q|]|] eqn:Eb; try discriminate.
  simpl in Hab, Hba. rewrite negb_involutive in Hab, Hba.
  apply Qle_bool_iff in Hab, Hba.
  exists (truncate p). split; [apply py_int_truncate, Ea|].
  rewrite (py_int_truncate b q Eb).
  rewrite (truncate_comp p q (Qle_antisym _ _ Hab Hba)). reflexivity.
Qed.

(** The whole numbers up to a non-negative number are those up to its
    [int()]. *)
Lemma whole_steps_up_to (q : Q) (i : Z) :
  Qle (inject_Z 0) q -> (i <= truncate q <-> Qle (inject_Z i) q).
Proof.
  intros Hq. unfold truncate.
  rewrite (proj2 (Qle_bool_iff _ _) Hq). split.
  - intros Hi. apply Qle_trans with (inject_Z (Qfloor q)).
    + rewrite <- Zle_Qle. exact Hi.
    + apply Qfloor_le.
  - intros Hi.
    assert (Hlt : Qlt (inject_Z i) (inject_Z (Qfloor q + 1))).
    { apply Qle_lt_trans with q; [exact Hi | apply Qlt_floor]. }
    rewrite <- Zlt_Qlt in Hlt. lia.
Qed.

(** ** The heat map's grid *)

Lemma in_range (n x : Z) : In x (range n) <-> 0 <= x < n.
Proof.
  unfold range. rewrite in_map_iff. split.
  - intros [k [<- Hk]]. apply in_seq in Hk. lia.
  - intros Hx. exists (Z.to_nat x). split; [lia|]. apply in_seq. lia.
Qed.

Lemma range_NoDup (n : Z) : NoDup (range n).
Proof.
  unfold range. generalize (seq_NoDup (Z.to_nat n) 0).
  induction 1 as [|k l Hk _ IH]; simpl; constructor; [|exact IH].
  rewrite in_map_iff. intros [k' [Heq Hin]].
  apply Nat2Z.inj in Heq. subst k'. contradiction.
Qed.

(** The cells of a grid, row after row, are pairwise different. *)
Lemma grid_NoDup (value : Z -> Z -> float) (rows cols : list Z) :
  NoDup rows -> NoDup cols ->
  NoDup (map (fun r => (Recency r, Frequency r))
           (flat_map (fun i => map (fun j => mkHeat i j (value i j)) cols) rows)).
Proof.
  intros Hrows Hcols. induction Hrows as [|i rows Hi _ IH]; simpl; [constructor|].
  rewrite map_app, map_map. simpl. apply NoDup_app; [| exact IH |].
  - clear -Hcols. induction Hcols as [|j cols Hj _ IHc]; simpl; constructor;
      [|exact IHc].
    rewrite in_map_iff. intros [j' [[= ->] Hin]]. contradiction.
  - intros [i' j']. rewrite !in_map_iff.
    intros [j [[= <- <-] _]] [r [Hr Hin]].
    apply in_flat_map in Hin. destruct Hin as [i'' [Hi'' Hin]].
    apply in_map_iff in Hin. destruct Hin as [j'' [<- _]].
    simpl in Hr. injection Hr as -> _. contradiction.
Qed.

(** C9: for a summary table whose [frequency] and [T] columns hold
    numbers, with max(frequency) and max(T) their greatest values, the
    data of the heat map has one row for every pair of whole numbers
    (recency, frequency) with 0 <= recency <= min(int(max(T)), 50) and
    0 <= frequency <= min(int(max(frequency)), 50), each pair once; for a
    maximum that is not negative these are the whole numbers of
    [0, min(max, 50)].  The value of a row is the model's expectation at
    horizon 30 for that frequency and recency, with the one capped maximum
    min(int(max(T)), 50) as the T of every row. *)
Theorem heatmap_grid (L : Lib) (bgf : BetaGeoFitter) (summary : DataFrame)
  (fs ts : list cell) (fm tm : cell) (ui : list ui_event) :
  getitem summary "frequency" = inr fs ->
  getitem summary "T" = inr ts ->
  finite_column fs ->
  finite_column ts ->
  column_max fs fm ->
  column_max ts tm ->
  exists fmax tmax data,
    py_int fm = inr fmax
    /\ py_int tm = inr tmax
    /\ (forall q, number fm = Some (Finite q) -> Qle (inject_Z 0) q ->
        forall j, j <= Z.min fmax 50 <-> Qle (inject_Z j) q /\ j <= 50)
    /\ (forall q, number tm = Some (Finite q) -> Qle (inject_Z 0) q ->
        forall i, i <= Z.min tmax 50 <-> Qle (inject_Z i) q /\ i <= 50)
    /\ heatmap_data L bgf summary = inr data
    /\ plot_frequency_recency_heatmap L bgf summary ui
       = ((ui ++ [StAltairChart data])
            ++ [StWrite "Frequency-Recency Matrix: Darker colors indicate higher expected future purchases in the next 30 days."],
          inr tt)%list
    /\ (forall i j v,
          In (mkHeat i j v) data <->
          0 <= i <= Z.min tmax 50 /\ 0 <= j <= Z.min fmax 50
          /\ v = conditional_expected_number_of_purchases_up_to_time
                   L bgf (Num 30) (Num j) (Num i) (Num (Z.min tmax 50)))
    /\ NoDup (map (fun r => (Recency r, Frequency r)) data).
Proof.
  intros Hf Ht Hfs Hts Hfm Htm.
  destruct (series_max_numbers fs (finite_column_numbers fs Hfs))
    as [fr [Hfmax Hfr]].
  { destruct Hfm as [Hin [Hn _]]. eauto. }
  destruct (series_max_numbers ts (finite_column_numbers ts Hts))
    as [tr [Htmax Htr]].
  { destruct Htm as [Hin [Hn _]]. eauto. }
  destruct (column_max_int fs fm fr Hfs Hfm Hfr) as [fmax [Hfi Hfri]].
  destruct (column_max_int ts tm tr Hts Htm Htr) as [tmax [Hti Htri]].
  assert (Hsteps : forall (m : cell) (n : Z) (q : Q),
             py_int m = inr n -> number m = Some (Finite q) ->
             Qle (inject_Z 0) q ->
             forall k, k <= Z.min n 50 <-> Qle (inject_Z k) q /\ k <= 50).
  { intros m n q Hint Hq Hpos k.
    rewrite (py_int_truncate m q Hq) in Hint. injection Hint as <-.
    rewrite <- (whole_steps_up_to q k Hpos). lia. }
  assert (Hdata : heatmap_data L bgf summary
                  = inr (flat_map
                           (fun i =>
                              map (fun j =>
                                     mkHeat i j
                                       (conditional_expected_number_of_purchases_up_to_time
                                          L bgf (Num 30) (Num j) (Num i)
                                          (Num (Z.min tmax 50))))
                                (range (Z.min fmax 50 + 1)))
                           (range (Z.min tmax 50 + 1)))).
  { unfold heatmap_data. rewrite Hf. simpl. rewrite Hfmax. simpl.
    rewrite Hfri. simpl. rewrite Ht. simpl. rewrite Htmax. simpl.
    rewrite Htri. reflexivity. }
  exists fmax, tmax. eexists.
  split; [exact Hfi|]. split; [exact Hti|].
  split; [intros q Hq Hpos; apply (Hsteps fm fmax q Hfi Hq Hpos)|].
  split; [intros q Hq Hpos; apply (Hsteps tm tmax q Hti Hq Hpos)|].
  split; [exact Hdata|]. split; [|split].
  - unfold plot_frequency_recency_heatmap, st_bind, lift, emit.
    rewrite Hdata. reflexivity.
  - intros i j v. rewrite in_flat_map. split.
    + intros [i' [Hi Hin]]. apply in_map_iff in Hin.
      destruct Hin as [j' [[= -> -> <-] Hj]].
      apply in_range in Hi, Hj. repeat split; lia.
    + intros [Hi [Hj ->]]. exists i. split; [apply in_range; lia|].
      apply in_map_iff. exists j. split; [reflexivity | apply in_range; lia].
  - apply (grid_NoDup
             (fun i j =>
                conditional_expected_number_of_purchases_up_to_time
                  L bgf (Num 30) (Num j) (Num i) (Num (Z.min tmax 50))));
      apply range_NoDup.
Qed.

Lemma heatmap_grid_witness :
  exists fmax tmax data,
    py_int (Flt (f64 5 (-1))) = inr fmax
    /\ py_int (Num 31) = inr tmax
    /\ (forall q, number (Flt (f64 5 (-1))) = Some (Finite q) ->
        Qle (inject_Z 0) q ->
        forall j, j <= Z.min fmax 50 <-> Qle (inject_Z j) q /\ j <= 50)
    /\ (forall q, number (Num 31) = Some (Finite q) -> Qle (inject_Z 0) q ->
        forall i, i <= Z.min tmax 50 <-> Qle (inject_Z i) q /\ i <= 50)
    /\ heatmap_data sample_lib sample_model mixed_summary_frame = inr data
    /\ plot_frequency_recency_heatmap sample_lib sample_model
         mixed_summary_frame []
       = (([] ++ [StAltairChart data])
            ++ [StWrite "Frequency-Recency Matrix: Darker colors indicate higher expected future purchases in the next 30 days."],
          inr tt)%list
    /\ (forall i j v,
          In (mkHeat i j v) data <->
          0 <= i <= Z.min tmax 50 /\ 0 <= j <= Z.min fmax 50
          /\ v = sample_expectation sample_model (Num 30) (Num j) (Num i)
                   (Num (Z.min tmax 50)))
    /\ NoDup (map (fun r => (Recency r, Frequency r)) data).
Proof.
  apply (heatmap_grid sample_lib sample_model mixed_summary_frame
           [Num 0; Flt (f64 5 (-1)); Num 1]
           [Num 17; Num 31; Flt (f64 61 (-1))]
           (Flt (f64 5 (-1))) (Num 31) []).
  - reflexivity.
  - reflexivity.
  - repeat (constructor; [right; reflexivity|]). constructor.
  - repeat (constructor; [right; reflexivity|]). constructor.
  - split; [simpl; tauto|]. split; [reflexivity|].
    intros c [<- | [<- | [<- | []]]] _; reflexivity.
  - split; [simpl; tauto|]. split; [reflexivity|].
    intros c [<- | [<- | [<- | []]]] _; reflexivity.
Defined.

(** On the table with mixed numbers the caps are int(2.5) = 2 and 31. *)
Example mixed_summary_grid :
  exists data,
    heatmap_data sample_lib sample_model mixed_summary_frame = inr data
    /\ List.length data = (32 * 3)%nat
    /\ In (mkHeat 31 2 (sample_expectation sample_model (Num 30) (Num 2)
                         (Num 31) (Num 31))) data.
Proof.
  eexists. split; [reflexivity|]. split; [reflexivity|].
  vm_compute. do 95 right. left. reflexivity.
Qed.

(** ** The exported archive *)

Lemma transform_columns (L : Lib) (df summary : DataFrame) :
  summary_columns L ->
  transform L df = inr summary ->
  column_names summary = ["frequency"; "recency"; "T"].
Proof.
  intros HL. unfold transform.
  destruct (getitem df "date") as [e | dates]; simpl; [discriminate|].
  destruct (series_max dates) as [e | cutoff]; simpl; [discriminate|].
  apply HL.
Qed.

Lemma predictions_header (summary : DataFrame) (predicted : list cell) :
  column_names summary = ["frequency"; "recency"; "T"] ->
  header (to_csv (setitem summary "predicted_transactions" predicted))
  = ["frequency"; "recency"; "T"; "predicted_transactions"].
Proof.
  unfold to_csv, setitem, column_names. simpl.
  destruct (columns summary) as [|[k1 v1] [|[k2 v2] [|[k3 v3] [|]]]];
    simpl; try discriminate.
  intros [= -> -> ->]. reflexivity.
Qed.

(** C8, as stated, fails: in the archive of the scenario's run the header
    of [predictions.csv] has no column [customer_id]; the customers are
    the row index of the summary, which [to_csv(index=False)] leaves out. *)
Lemma scenario_export_lacks_customer_id :
  exists label zip_file file_name mime predictions,
    In (StDownloadButton label zip_file file_name mime)
      (shown (main sample_lib (Some scenario_csv) one_tenth 60))
    /\ entry "predictions.csv" zip_file = Some (CsvText predictions)
    /\ header predictions
       = ["frequency"; "recency"; "T"; "predicted_transactions"]
    /\ ~ In "customer_id" (header predictions).
Proof.
  do 5 eexists. split; [|split; [|split]].
  - vm_compute. do 14 right. left. reflexivity.
  - reflexivity.
  - reflexivity.
  - simpl. intros [H | [H | [H | [H | []]]]]; discriminate.
Qed.

Lemma train_model_fitted (L : Lib) (summary : DataFrame) (penalizer : pyvalue)
  (bgf : BetaGeoFitter) :
  train_model L summary penalizer = inr bgf ->
  exists frequency recency T coefficients,
    getitem summary "frequency" = inr frequency
    /\ getitem summary "recency" = inr recency
    /\ getitem summary "T" = inr T
    /\ fit L penalizer frequency recency T = inr coefficients
    /\ bgf = mkBetaGeoFitter penalizer coefficients.
Proof.
  unfold train_model.
  destruct (getitem summary "frequency") as [e | fs]; simpl; [discriminate|].
  destruct (getitem summary "recency") as [e | rs]; simpl; [discriminate|].
  destruct (getitem summary "T") as [e | ts]; simpl; [discriminate|].
  destruct (fit L penalizer fs rs ts) as [e | coefficients] eqn:Hfit; simpl;
    [discriminate|].
  intros [= <-]. exists fs, rs, ts, coefficients. auto.
Qed.

(** The archive behind the download button is the archive of the run:
    of the summary, the model fitted on it and the predictions made with
    that model. *)
Lemma download_of_run (L : Lib) (df : DataFrame) (penalizer : float)
  (time_period : Z) (label : string) (zip_file : ZipFile)
  (file_name mime : string) :
  In (StDownloadButton label zip_file file_name mime)
    (fst (run_pipeline L df penalizer time_period
            [StTitle "Customer Lifetime Value Prediction with BG/NBD Model"])) ->
  exists summary bgf predicted,
    transform L df = inr summary
    /\ train_model L summary (PyFloat penalizer) = inr bgf
    /\ make_predictions L bgf summary time_period = inr predicted
    /\ zip_file
       = export_zip bgf (setitem summary "predicted_transactions" predicted).
Proof.
  unfold run_pipeline, plot_frequency_recency_heatmap, plot_validation,
    st_bind, lift, emit. simpl.
  destruct (transform L df) as [e | summary] eqn:Hsummary; simpl;
    [intros H; no_such_event H|].
  destruct (train_model L summary (PyFloat penalizer)) as [e | bgf] eqn:Hfit;
    simpl; [intros H; no_such_event H|].
  destruct (make_predictions L bgf summary time_period) as [e | predicted]
    eqn:Hpredicted; simpl; [intros H; no_such_event H|].
  destruct (getitems _ _) as [e | table]; simpl; [intros H; no_such_event H|].
  destruct (heatmap_data L bgf _) as [e | data]; simpl;
    [intros H; no_such_event H|].
  destruct (plot_period_transactions L bgf) as [e | []]; simpl;
    [intros H; no_such_event H|].
  intros H. exists summary, bgf, predicted.
  split; [reflexivity|]. split; [exact Hfit|]. split; [exact Hpredicted|].
  repeat (destruct H as [H | H]; [try discriminate|]); [|contradiction].
  injection H as _ <- _ _. reflexivity.
Qed.

(** C8, amended: the archive of every run that reaches the download
    button has exactly the entries [predictions.csv] and
    [model_params.json].  [predictions.csv] is the summary table with the
    predictions, written without its row index: its columns are
    [frequency], [recency], [T] and [predicted_transactions], and the
    customers, being the index, are not in it.  [model_params.json] has
    exactly the two top-level fields [params] and [penalizer_coef]:
    [params] maps the labels of the coefficients the fit returned to their
    values (every coefficient once, in the fit's order, when the labels
    are distinct), and [penalizer_coef] is the value the model was fitted
    with. *)
Theorem export_contents (L : Lib) (uploaded_file : option string)
  (penalizer : float) (time_period : Z) (label : string)
  (zip_file : ZipFile) (file_name mime : string) :
  summary_columns L ->
  In (StDownloadButton label zip_file file_name mime)
    (shown (main L uploaded_file penalizer time_period)) ->
  exists file df summary frequency recency T coefficients predicted params,
    uploaded_file = Some file
    /\ load_try L file = inr df
    /\ transform L df = inr summary
    /\ getitem summary "frequency" = inr frequency
    /\ getitem summary "recency" = inr recency
    /\ getitem summary "T" = inr T
    /\ fit L (PyFloat penalizer) frequency recency T = inr coefficients
    /\ make_predictions L (mkBetaGeoFitter (PyFloat penalizer) coefficients)
         summary time_period = inr predicted
    /\ zip_file
       = [ ("predictions.csv",
            CsvText (to_csv (setitem summary "predicted_transactions" predicted)));
           ("model_params.json",
            JsonText (JObject [ ("params", JObject params);
                                ("penalizer_coef", JNumber penalizer) ])) ]
    /\ header (to_csv (setitem summary "predicted_transactions" predicted))
       = ["frequency"; "recency"; "T"; "predicted_transactions"]
    /\ params
       = map (fun kv => (label_repr (fst kv), json_dumps (snd kv)))
           (to_dict coefficients)
    /\ (named_coefficients coefficients ->
        params
        = map (fun kv => (label_repr (fst kv), json_dumps (snd kv)))
            coefficients).
Proof.
  intros HL Hin. unfold shown in Hin.
  destruct uploaded_file as [file|]; [|no_such_event Hin].
  destruct (load_try L file) as [e | df] eqn:Hload.
  - unfold main, st_bind, emit, load_and_preprocess_data in Hin.
    rewrite Hload in Hin. no_such_event Hin.
  - rewrite (main_after_ingestion L file df _ _ [] Hload) in Hin.
    apply download_of_run in Hin.
    destruct Hin as [summary [bgf [predicted [Hsummary [Hfit [Hpred ->]]]]]].
    apply train_model_fitted in Hfit.
    destruct Hfit as [fs [rs [ts [coefficients [Hf [Hr [Ht [Hfit ->]]]]]]]].
    exists file, df, summary, fs, rs, ts, coefficients, predicted.
    exists (map (fun kv => (label_repr (fst kv), json_dumps (snd kv)))
              (to_dict coefficients)).
    repeat (split; [solve [reflexivity | assumption]|]).
    split.
    { unfold export_zip, writestr, save_model_params. simpl. do 8 f_equal.
      apply map_ext. intros [k v]. reflexivity. }
    split.
    { apply predictions_header, (transform_columns L df), Hsummary. exact HL. }
    split; [reflexivity|].
    intros Hnamed. rewrite (to_dict_named _ Hnamed). reflexivity.
Qed.

Lemma spec_summary_columns : summary_columns sample_lib.
Proof.
  intros transactions id_col date_col period_end summary. simpl.
  unfold spec_summary.
  destruct (getitem transactions id_col) as [e | ids]; simpl; [discriminate|].
  destruct (getitem transactions date_col) as [e | dates]; simpl; [discriminate|].
  destruct (transaction_log ids dates); [discriminate|].
  destruct period_end; try discriminate.
  intros [= <-]. reflexivity.
Qed.

Lemma export_contents_witness :
  exists file df summary frequency recency T coefficients predicted params,
    Some scenario_csv = Some file
    /\ load_try sample_lib file = inr df
    /\ transform sample_lib df = inr summary
    /\ getitem summary "frequency" = inr frequency
    /\ getitem summary "recency" = inr recency
    /\ getitem summary "T" = inr T
    /\ fit sample_lib (PyFloat one_tenth) frequency recency T = inr coefficients
    /\ make_predictions sample_lib
         (mkBetaGeoFitter (PyFloat one_tenth) coefficients) summary 60
       = inr predicted
    /\ scenario_export
       = [ ("predictions.csv",
            CsvText (to_csv (setitem summary "predicted_transactions" predicted)));
           ("model_params.json",
            JsonText (JObject [ ("params", JObject params);
                                ("penalizer_coef", JNumber one_tenth) ])) ]
    /\ header (to_csv (setitem summary "predicted_transactions" predicted))
       = ["frequency"; "recency"; "T"; "predicted_transactions"]
    /\ params
       = map (fun kv => (label_repr (fst kv), json_dumps (snd kv)))
           (to_dict coefficients)
    /\ (named_coefficients coefficients ->
        params
        = map (fun kv => (label_repr (fst kv), json_dumps (snd kv)))
            coefficients).
Proof.
  apply (export_contents sample_lib (Some scenario_csv) one_tenth 60
           "Download Predictions and Model Parameters as ZIP" scenario_export
           "predictions_and_model_params.zip" "application/zip").
  - exact spec_summary_columns.
  - vm_compute. do 14 right. left. reflexivity.
Defined.

(** In the scenario's archive [params] holds the four coefficients of the
    sample fit, by name. *)
Example scenario_params :
  entry "model_params.json" scenario_export
  = Some (JsonText
            (JObject
               [ ("params",
                  JObject [ ("r", JNumber (f64 4503599627370496 (-53)));
                            ("alpha", JNumber (f64 4503599627370496 (-50)));
                            ("a", JNumber (f64 4503599627370496 (-52)));
                            ("b", JNumber (f64 4503599627370496 (-51))) ]);
                 ("penalizer_coef", JNumber one_tenth) ])).
Proof. reflexivity. Qed.

(** ** Exceptions *)

(** Ingestion catches whatever its body raises: it always returns, and
    an exception becomes one error message. *)
Lemma ingestion_never_raises (L : Lib) (file : string) (ui : list ui_event) :
  (exists df, load_and_preprocess_data L file ui = (ui, inr (Some df)))
  \/ (exists e, load_try L file = inl e
                /\ load_and_preprocess_data L file ui
                   = ((ui ++ [StError ("Error loading data: " ++ str e)])%list,
                      inr None)).
Proof.
  unfold load_and_preprocess_data.
  destruct (load_try L file) as [e | df]; [right | left]; eauto.
Qed.

(** C10 does not hold of the summary step and of the fit: [main] calls
    both outside any [try], so an exception either of them raises leaves
    [main] as it is, and no error message is shown. *)
Theorem exception_after_ingestion_uncaught (L : Lib) (file : string)
  (df : DataFrame) (penalizer : float) (time_period : Z) (e : exn) :
  load_try L file = inr df ->
  transform L df = inl e
  \/ (exists summary, transform L df = inr summary
                      /\ train_model L summary (PyFloat penalizer) = inl e) ->
  outcome (main L (Some file) penalizer time_period) = inl e
  /\ ~ reports_error (shown (main L (Some file) penalizer time_period)).
Proof.
  intros Hload Hraise. unfold outcome, shown.
  rewrite (main_after_ingestion L file df _ _ [] Hload).
  unfold run_pipeline, st_bind, lift, emit. simpl.
  destruct Hraise as [Ht | [summary [Ht Hfit]]]; rewrite Ht; simpl.
  - split; [reflexivity|]. intros [msg H]. no_such_event H.
  - rewrite Hfit. simpl. split; [reflexivity|]. intros [msg H]. no_such_event H.
Qed.

Lemma exception_after_ingestion_uncaught_witness :
  (outcome (main sample_lib (Some header_only_csv) one_tenth 60)
   = inl (LibraryError "EmptyDatasetError" "no valid rows remain after cleanup")
   /\ ~ reports_error (shown (main sample_lib (Some header_only_csv) one_tenth 60)))
  /\ (outcome (main lenient_lib (Some header_only_csv) one_tenth 60)
      = inl (ValueError "There exists a zero length vector in one of frequency, recency or T.")
      /\ ~ reports_error (shown (main lenient_lib (Some header_only_csv) one_tenth 60))).
Proof.
  split.
  - apply (exception_after_ingestion_uncaught sample_lib header_only_csv
             (mkFrame None [] [("customer_id", []); ("date", [])])).
    + reflexivity.
    + left. reflexivity.
  - apply (exception_after_ingestion_uncaught lenient_lib header_only_csv
             (mkFrame None [] [("customer_id", []); ("date", [])])).
    + reflexivity.
    + right. exists (summary_frame "customer_id" []). split; reflexivity.
Defined.

(** * Further properties of the script *)

(** ** Ingestion: which rows and columns are kept *)

Lemma zip_and_all_true (m : list bool) (idx : list cell) :
  List.length m = List.length idx ->
  zip_and m (map (fun _ => true) idx) = m.
Proof.
  revert idx. induction m as [|b m IH]; intros [|i idx]; simpl;
    try discriminate; [reflexivity|].
  intros [= Hlen]. rewrite andb_true_r, IH by exact Hlen. reflexivity.
Qed.

(** Once no date is missing, the date column adds nothing to the mask of
    [dropna]. *)
Lemma keep_mask_customers (ids : list cell) (ts : list Z) (idx : list cell) :
  List.length ids = List.length ts ->
  List.length ts = List.length idx ->
  zip_and (map notnull ids)
    (zip_and (map notnull (map Timestamp ts)) (map (fun _ => true) idx))
  = map notnull ids.
Proof.
  intros Hlen1 Hlen2.
  rewrite zip_and_all_true by (rewrite !length_map; exact Hlen2).
  revert ts Hlen1 Hlen2. revert idx.
  induction ids as [|c ids IH]; intros idx [|t ts]; simpl;
    try discriminate; [reflexivity|].
  intros [= Hlen1] Hlen2. destruct idx as [|i idx]; [discriminate|].
  injection Hlen2 as Hlen2.
  rewrite andb_true_r, (IH idx ts Hlen1 Hlen2). reflexivity.
Qed.

Lemma column_length (df : DataFrame) (col : string) (v : list cell) :
  well_formed df -> getitem df col = inr v -> List.length v = nrows df.
Proof.
  intros Hwf Hv. apply getitem_inr, lookup_In in Hv.
  unfold well_formed in Hwf. rewrite Forall_forall in Hwf.
  apply (Hwf _ Hv).
Qed.

(** The frame ingestion returns, written out: the mask of [dropna] is the
    mask of the customers that are there. *)
Lemma load_try_frame (L : Lib) (file : string)
  (raw df : DataFrame) (ids dates : list cell) :
  read_csv L file = inr raw ->
  well_formed raw ->
  getitem raw "customer_id" = inr ids ->
  getitem raw "date" = inr dates ->
  load_try L file = inr df ->
  df = mkFrame (index_name raw)
         (select (map notnull ids) (index raw))
         (map (fun kv => (fst kv, select (map notnull ids) (snd kv)))
            (assign "date" (map (to_datetime_coerce L) dates) (columns raw))).
Proof.
  intros Hread Hwf Hids Hdates Hload.
  pose proof (column_length raw _ _ Hwf Hids) as Hlen_ids.
  pose proof (column_length raw _ _ Hwf Hdates) as Hlen_dates.
  assert (Hid : has_column raw "customer_id" = true)
    by (apply getitem_inr in Hids; apply (lookup_has_column _ _ _ Hids)).
  rewrite (load_try_checked L file raw dates Hread Hid Hdates) in Hload.
  destruct (existsb isnull (map (to_datetime_coerce L) dates)) eqn:Hnull;
    [discriminate|].
  destruct (coerce_timestamps L dates Hnull) as [ts Hts].
  assert (Hlen_ts : List.length ts = List.length dates).
  { rewrite <- (length_map Timestamp ts), <- Hts. apply length_map. }
  apply getitem_inr in Hids.
  unfold dropna, keep_mask, getitem in Hload. simpl in Hload.
  rewrite lookup_assign_other in Hload by discriminate.
  rewrite Hids, lookup_assign_same in Hload. simpl in Hload.
  rewrite Hts in Hload.
  rewrite keep_mask_customers in Hload by (unfold nrows in *; congruence).
  injection Hload as <-. rewrite Hts. reflexivity.
Qed.

Lemma select_filter {A} (f : A -> bool) (l : list A) :
  select (map f l) l = filter f l.
Proof.
  induction l as [|x l IH]; simpl; [reflexivity|].
  rewrite IH. reflexivity.
Qed.

Lemma select_length {A B} (m : list bool) (l : list A) (l' : list B) :
  List.length l = List.length l' ->
  List.length (select m l) = List.length (select m l').
Proof.
  revert l l'. induction m as [|b m IH]; intros [|x l] [|y l']; simpl;
    try discriminate; try reflexivity.
  intros [= Hlen]. destruct b; simpl; rewrite (IH l l' Hlen); reflexivity.
Qed.

Lemma select_shorter {A} (m : list bool) (l : list A) :
  (List.length (select m l) <= List.length l)%nat.
Proof.
  revert l. induction m as [|b m IH]; intros [|x l]; simpl; try lia.
  specialize (IH l). destruct b; simpl; lia.
Qed.

Lemma assign_names {A} (col : string) (v w : A) (l : list (string * A)) :
  lookup col l = Some w -> map fst (assign col v l) = map fst l.
Proof.
  induction l as [|[k u] l IH]; simpl; [discriminate|].
  destruct (String.eqb col k) eqn:E; simpl; [reflexivity|].
  intros Hl. rewrite (IH Hl). reflexivity.
Qed.

Lemma assign_In {A} (col : string) (v : A) (l : list (string * A))
  (kv : string * A) :
  In kv (assign col v l) -> In kv l \/ snd kv = v.
Proof.
  induction l as [|[k u] l IH]; simpl.
  - intros [<- | []]. right. reflexivity.
  - destruct (String.eqb col k); simpl.
    + intros [<- | Hin]; [right; reflexivity | left; right; exact Hin].
    + intros [<- | Hin]; [left; left; reflexivity|].
      destruct (IH Hin); [left; right; assumption | right; assumption].
Qed.

(** X2: when the checks pass, the rows ingestion drops are exactly the
    rows whose [customer_id] is missing: the customers returned are the
    customers read, without the missing ones and in the same order, and
    every other column is cut down by the same rows, the [date] column
    after its texts were replaced by the parsed dates. *)
Theorem ingestion_drops_missing_customers (L : Lib) (file : string)
  (raw df : DataFrame) (ids dates : list cell) :
  read_csv L file = inr raw ->
  well_formed raw ->
  getitem raw "customer_id" = inr ids ->
  getitem raw "date" = inr dates ->
  load_try L file = inr df ->
  getitem df "customer_id" = inr (filter notnull ids)
  /\ getitem df "date"
     = inr (select (map notnull ids) (map (to_datetime_coerce L) dates))
  /\ index df = select (map notnull ids) (index raw)
  /\ forall col v,
       col <> "date" -> getitem raw col = inr v ->
       getitem df col = inr (select (map notnull ids) v).
Proof.
  intros Hread Hwf Hids Hdates Hload.
  rewrite (load_try_frame L file raw df ids dates Hread Hwf Hids Hdates Hload).
  assert (Hother : forall col v,
             col <> "date" -> getitem raw col = inr v ->
             getitem
               (mkFrame (index_name raw) (select (map notnull ids) (index raw))
                  (map (fun kv => (fst kv, select (map notnull ids) (snd kv)))
                     (assign "date" (map (to_datetime_coerce L) dates)
                        (columns raw)))) col
             = inr (select (map notnull ids) v)).
  { intros col v Hcol Hv. apply getitem_inr in Hv. unfold getitem. simpl.
    rewrite lookup_map_values, lookup_assign_other by exact Hcol.
    rewrite Hv. reflexivity. }
  repeat split.
  - rewrite (Hother "customer_id" ids) by (discriminate || assumption).
    rewrite select_filter. reflexivity.
  - unfold getitem. simpl.
    rewrite lookup_map_values, lookup_assign_same. reflexivity.
  - exact Hother.
Qed.

Lemma ingestion_drops_missing_customers_witness :
  getitem missing_customer_cleaned "customer_id"
  = inr (filter notnull [Str "C1"; NA; Str "C2"])
  /\ getitem missing_customer_cleaned "date"
     = inr (select (map notnull [Str "C1"; NA; Str "C2"])
              (map (to_datetime_coerce sample_lib)
                 [Str "2023-01-01"; Str "2023-01-02"; Str "2023-01-15"]))
  /\ index missing_customer_cleaned
     = select (map notnull [Str "C1"; NA; Str "C2"]) (index missing_customer_frame)
  /\ forall col v,
       col <> "date" -> getitem missing_customer_frame col = inr v ->
       getitem missing_customer_cleaned col
       = inr (select (map notnull [Str "C1"; NA; Str "C2"]) v).
Proof.
  apply (ingestion_drops_missing_customers sample_lib missing_customer_csv
           missing_customer_frame missing_customer_cleaned);
    try reflexivity.
  repeat constructor.
Defined.

Lemma load_try_columns (L : Lib) (file : string) (raw df : DataFrame) :
  read_csv L file = inr raw ->
  load_try L file = inr df ->
  exists ids dates,
    getitem raw "customer_id" = inr ids /\ getitem raw "date" = inr dates.
Proof.
  intros Hread Hload.
  unfold load_try in Hload. rewrite Hread in Hload. simpl in Hload.
  destruct (has_column raw "customer_id") eqn:Hid; [|discriminate].
  destruct (has_column raw "date") eqn:Hdate; [|discriminate].
  destruct (has_column_lookup _ _ Hid) as [ids Hids].
  destruct (has_column_lookup _ _ Hdate) as [dates Hdates].
  exists ids, dates. split; apply getitem_inr; assumption.
Qed.

Lemma load_try_well_formed (L : Lib) (file : string) (raw df : DataFrame) :
  read_csv L file = inr raw ->
  well_formed raw ->
  load_try L file = inr df ->
  well_formed df.
Proof.
  intros Hread Hwf Hload.
  destruct (load_try_columns L file raw df Hread Hload)
    as [ids [dates [Hids Hdates]]].
  rewrite (load_try_frame L file raw df ids dates Hread Hwf Hids Hdates Hload).
  pose proof (column_length raw _ _ Hwf Hdates) as Hlen_dates.
  unfold well_formed, nrows in *. simpl.
  rewrite Forall_forall in Hwf |- *. intros kv Hkv. simpl.
  apply in_map_iff in Hkv. destruct Hkv as [[k v] [<- Hin]]. simpl.
  apply select_length. apply assign_In in Hin. simpl in Hin.
  destruct Hin as [Hin | ->]; [apply (Hwf _ Hin)|].
  rewrite length_map. exact Hlen_dates.
Qed.

(** X3: ingestion keeps the shape of the table: the frame returned has
    the columns of the frame read, in the same order, every column as
    long as the index, and no more rows than were read. *)
Theorem ingestion_keeps_columns (L : Lib) (file : string) (raw df : DataFrame) :
  read_csv L file = inr raw ->
  well_formed raw ->
  load_try L file = inr df ->
  column_names df = column_names raw
  /\ index_name df = index_name raw
  /\ well_formed df
  /\ (nrows df <= nrows raw)%nat.
Proof.
  intros Hread Hwf Hload.
  destruct (load_try_columns L file raw df Hread Hload)
    as [ids [dates [Hids Hdates]]].
  split; [|split; [|split]].
  - rewrite (load_try_frame L file raw df ids dates Hread Hwf Hids Hdates Hload).
    unfold column_names. simpl. rewrite map_map. simpl.
    apply getitem_inr in Hdates. apply (assign_names _ _ dates), Hdates.
  - rewrite (load_try_frame L file raw df ids dates Hread Hwf Hids Hdates Hload).
    reflexivity.
  - apply (load_try_well_formed L file raw df Hread Hwf Hload).
  - rewrite (load_try_frame L file raw df ids dates Hread Hwf Hids Hdates Hload).
    unfold nrows. simpl. apply select_shorter.
Qed.

Lemma ingestion_keeps_columns_witness :
  column_names missing_customer_cleaned = column_names missing_customer_frame
  /\ index_name missing_customer_cleaned = index_name missing_customer_frame
  /\ well_formed missing_customer_cleaned
  /\ (nrows missing_customer_cleaned <= nrows missing_customer_frame)%nat.
Proof.
  apply (ingestion_keeps_columns sample_lib missing_customer_csv);
    try reflexivity.
  repeat constructor.
Defined.

(** X4: the frame ingestion returns is a cleaned log: its [customer_id]
    and [date] columns are equally long, no customer is missing and every
    date is a parsed date. *)
Theorem ingestion_returns_cleaned_log (L : Lib) (file : string)
  (raw df : DataFrame) :
  read_csv L file = inr raw ->
  well_formed raw ->
  load_try L file = inr df ->
  exists log,
    getitem df "customer_id" = inr (map customer_id log)
    /\ getitem df "date" = inr (map (fun r => Timestamp (date r)) log)
    /\ Forall (fun r => isnull (customer_id r) = false) log
    /\ nrows df = List.length log.
Proof.
  intros Hread Hwf Hload.
  destruct (ingestion_gives_cleaned_log L file raw df Hread Hwf Hload)
    as [log [Hids [Hdates Hclean]]].
  exists log. repeat split; try assumption.
  pose proof (load_try_well_formed L file raw df Hread Hwf Hload) as Hshape.
  rewrite <- (column_length df _ _ Hshape Hids). apply length_map.
Qed.

Lemma ingestion_returns_cleaned_log_witness :
  exists log,
    getitem missing_customer_cleaned "customer_id" = inr (map customer_id log)
    /\ getitem missing_customer_cleaned "date"
       = inr (map (fun r => Timestamp (date r)) log)
    /\ Forall (fun r => isnull (customer_id r) = false) log
    /\ nrows missing_customer_cleaned = List.length log.
Proof.
  apply (ingestion_returns_cleaned_log sample_lib missing_customer_csv
           missing_customer_frame);
    try reflexivity.
  repeat constructor.
Defined.

(** ** The summary step and the model *)

(** X5: whatever the library, the observation period end that [main]
    hands to the summary routine is the latest date of the cleaned log,
    and the missing value when the log has no rows. *)
Theorem transform_passes_latest_date (L : Lib) (df : DataFrame)
  (log : list TransactionRecord) :
  getitem df "date" = inr (map (fun r => Timestamp (date r)) log) ->
  transform L df
  = summary_data_from_transaction_data L df "customer_id" "date"
      (match log with
       | [] => NA
       | _ :: _ => Timestamp (cutoff_of log)
       end).
Proof.
  intros Hdates. unfold transform. rewrite Hdates. simpl.
  destruct log as [|r log]; [reflexivity|].
  rewrite <- (map_map date Timestamp).
  rewrite series_max_timestamps by discriminate. reflexivity.
Qed.

Lemma transform_passes_latest_date_witness :
  transform lenient_lib scenario_frame
  = summary_data_from_transaction_data lenient_lib scenario_frame
      "customer_id" "date" (Timestamp (cutoff_of scenario_log))
  /\ transform lenient_lib (mkFrame None [] [("customer_id", []); ("date", [])])
     = summary_data_from_transaction_data lenient_lib
         (mkFrame None [] [("customer_id", []); ("date", [])])
         "customer_id" "date" NA.
Proof.
  split.
  - apply (transform_passes_latest_date lenient_lib scenario_frame scenario_log).
    reflexivity.
  - apply (transform_passes_latest_date lenient_lib
             (mkFrame None [] [("customer_id", []); ("date", [])]) []).
    reflexivity.
Defined.

Lemma getitem_missing (df : DataFrame) (col : string) :
  has_column df col = false -> getitem df col = inl (KeyError col).
Proof.
  unfold getitem. destruct (lookup col (columns df)) as [v|] eqn:E;
    [|reflexivity].
  intros Hno. rewrite (lookup_has_column _ _ _ E) in Hno. discriminate.
Qed.

Lemma getitem_present (df : DataFrame) (col : string) :
  has_column df col = true -> exists v, getitem df col = inr v.
Proof.
  intros Hcol. destruct (has_column_lookup _ _ Hcol) as [v Hv].
  exists v. apply getitem_inr, Hv.
Qed.

(** X6: when the summary table lacks one of the columns [frequency],
    [recency], [T], both [train_model] and [make_predictions] raise
    [KeyError] for the first one that is missing, in that order, and
    the fit is not consulted. *)
Theorem summary_column_missing (L : Lib) (summary : DataFrame) (col : string)
  (penalizer : pyvalue) (bgf : BetaGeoFitter) (time_period : Z) :
  first_missing_column summary = Some col ->
  train_model L summary penalizer = inl (KeyError col)
  /\ make_predictions L bgf summary time_period = inl (KeyError col).
Proof.
  unfold first_missing_column, train_model, make_predictions. simpl.
  destruct (has_column summary "frequency") eqn:Hf; simpl.
  - destruct (getitem_present _ _ Hf) as [fs ->]. simpl.
    destruct (has_column summary "recency") eqn:Hr; simpl.
    + destruct (getitem_present _ _ Hr) as [rs ->]. simpl.
      destruct (has_column summary "T") eqn:Ht; simpl; [discriminate|].
      intros [= <-]. rewrite (getitem_missing _ _ Ht). auto.
    + intros [= <-]. rewrite (getitem_missing _ _ Hr). auto.
  - intros [= <-]. rewrite (getitem_missing _ _ Hf). auto.
Qed.

Lemma summary_column_missing_witness :
  train_model sample_lib no_recency_frame (PyFloat one_tenth)
  = inl (KeyError "recency")
  /\ make_predictions sample_lib sample_model no_recency_frame 60
     = inl (KeyError "recency").
Proof.
  apply (summary_column_missing sample_lib no_recency_frame "recency").
  reflexivity.
Defined.

(** ** The heat map: size and empty input *)

Lemma grid_length {A} (cell_of : Z -> Z -> A) (rows cols : list Z) :
  List.length (flat_map (fun i => map (cell_of i) cols) rows)
  = (List.length rows * List.length cols)%nat.
Proof.
  induction rows as [|i rows IH]; simpl; [reflexivity|].
  rewrite length_app, length_map, IH. reflexivity.
Qed.

Lemma range_length (n : Z) : List.length (range n) = Z.to_nat n.
Proof. unfold range. rewrite length_map, length_seq. reflexivity. Qed.

(** X8: whatever the summary table holds, the heat map has at most
    51 x 51 = 2601 cells, and every cell has its recency and its
    frequency between 0 and 50. *)
Theorem heatmap_at_most_2601_cells (L : Lib) (bgf : BetaGeoFitter)
  (summary : DataFrame) (data : list heat_row) :
  heatmap_data L bgf summary = inr data ->
  (List.length data <= 2601)%nat
  /\ Forall (fun r => 0 <= Recency r <= 50 /\ 0 <= Frequency r <= 50) data.
Proof.
  unfold heatmap_data.
  destruct (getitem summary "frequency") as [e | fs]; simpl; [discriminate|].
  destruct (series_max fs) as [e | fmax]; simpl; [discriminate|].
  destruct (py_int fmax) as [e | fint]; simpl; [discriminate|].
  destruct (getitem summary "T") as [e | ts]; simpl; [discriminate|].
  destruct (series_max ts) as [e | tmax]; simpl; [discriminate|].
  destruct (py_int tmax) as [e | tint]; simpl; [discriminate|].
  intros [= <-]. split.
  - rewrite grid_length, !range_length.
    change 2601%nat with (51 * 51)%nat.
    apply Nat.mul_le_mono; lia.
  - apply Forall_forall. intros r Hr. apply in_flat_map in Hr.
    destruct Hr as [i [Hi Hr]]. apply in_map_iff in Hr.
    destruct Hr as [j [<- Hj]]. apply in_range in Hi, Hj. simpl. lia.
Qed.

Lemma heatmap_at_most_2601_cells_witness :
  (List.length
     (flat_map
        (fun i => map (fun j => mkHeat i j (sample_expectation sample_model
                                              (Num 30) (Num j) (Num i) (Num 31)))
                    (range 2))
        (range 32)) <= 2601)%nat
  /\ Forall (fun r => 0 <= Recency r <= 50 /\ 0 <= Frequency r <= 50)
       (flat_map
          (fun i => map (fun j => mkHeat i j (sample_expectation sample_model
                                                (Num 30) (Num j) (Num i) (Num 31)))
                      (range 2))
          (range 32)).
Proof.
  apply (heatmap_at_most_2601_cells sample_lib sample_model
           (summary_frame "customer_id" (summarize scenario_log (cutoff_of scenario_log)))).
  reflexivity.
Defined.

Lemma series_max_all_missing (s : list cell) :
  forallb isnull s = true -> series_max s = inr NA.
Proof.
  unfold series_max. induction s as [|c s IH]; simpl; [reflexivity|].
  intros Hall. apply andb_true_iff in Hall. destruct Hall as [Hc Hs].
  rewrite Hc. apply IH, Hs.
Qed.

(** X9: on a summary table whose [frequency] column has no value (no
    rows, or only missing values) [plot_frequency_recency_heatmap] raises
    [ValueError] from [int()] of the missing maximum, before anything is
    drawn. *)
Theorem heatmap_of_empty_summary (L : Lib) (bgf : BetaGeoFitter)
  (summary : DataFrame) (fs : list cell) (ui : list ui_event) :
  getitem summary "frequency" = inr fs ->
  forallb isnull fs = true ->
  plot_frequency_recency_heatmap L bgf summary ui
  = (ui, inl (ValueError "cannot convert float NaN to integer")).
Proof.
  intros Hf Hall.
  unfold plot_frequency_recency_heatmap, st_bind, lift, heatmap_data.
  rewrite Hf. simpl. rewrite (series_max_all_missing fs Hall). reflexivity.
Qed.

Lemma heatmap_of_empty_summary_witness :
  plot_frequency_recency_heatmap sample_lib sample_model empty_summary_frame []
  = ([], inl (ValueError "cannot convert float NaN to integer")).
Proof.
  apply (heatmap_of_empty_summary sample_lib sample_model empty_summary_frame []);
    reflexivity.
Defined.

(** ** Saving and loading: missing keys, repeated labels *)

Lemma has_key_false (d : pydict) (k : label) :
  has_key d k = false -> dict_getitem d k = inl (KeyError (label_repr k)).
Proof.
  unfold has_key. induction d as [|[k' v] d IH]; simpl; [reflexivity|].
  destruct (label_eqb k k'); simpl; [discriminate | exact IH].
Qed.

Lemma has_key_true (d : pydict) (k : label) :
  has_key d k = true -> exists v, dict_getitem d k = inr v.
Proof.
  unfold has_key. induction d as [|[k' v] d IH]; simpl; [discriminate|].
  destruct (label_eqb k k'); simpl; [eauto | exact IH].
Qed.

(** X10: [load_model_params] on a dictionary without the key
    [penalizer_coef] raises [KeyError] for it, also when [params] is
    missing too; with [penalizer_coef] there and [params] missing it
    raises [KeyError] for [params]. *)
Theorem load_model_params_missing_key (params_dict : pydict) (k : string) :
  first_missing_key params_dict = Some k ->
  load_model_params params_dict = inl (KeyError k).
Proof.
  unfold first_missing_key, load_model_params. simpl.
  destruct (has_key params_dict (Name "penalizer_coef")) eqn:Hpc; simpl.
  - destruct (has_key_true _ _ Hpc) as [pc ->]. simpl.
    destruct (has_key params_dict (Name "params")) eqn:Hp; simpl;
      [discriminate|].
    intros [= <-]. rewrite (has_key_false _ _ Hp). reflexivity.
  - intros [= <-]. rewrite (has_key_false _ _ Hpc). reflexivity.
Qed.

Lemma load_model_params_missing_key_witness :
  load_model_params [(Name "params", PyDict [])] = inl (KeyError "penalizer_coef")
  /\ load_model_params [(Name "penalizer_coef", PyFloat one_tenth)]
     = inl (KeyError "params").
Proof.
  split.
  - apply (load_model_params_missing_key [(Name "params", PyDict [])]).
    reflexivity.
  - apply (load_model_params_missing_key
             [(Name "penalizer_coef", PyFloat one_tenth)]).
    reflexivity.
Defined.

Lemma dict_setitem_keys (d : pydict) (k k' : label) (v : pyvalue) :
  In k' (map fst (dict_setitem d k v)) -> k' = k \/ In k' (map fst d).
Proof.
  induction d as [|[k0 w] d IH]; simpl.
  - intros [<- | []]. auto.
  - destruct (label_eqb k k0) eqn:E; simpl.
    + tauto.
    + intros [<- | Hin]; [auto|]. destruct (IH Hin); auto.
Qed.

Lemma dict_setitem_NoDup (d : pydict) (k : label) (v : pyvalue) :
  NoDup (map fst d) -> NoDup (map fst (dict_setitem d k v)).
Proof.
  induction d as [|[k0 w] d IH]; simpl; intros Hnd.
  - constructor; [tauto | constructor].
  - inversion Hnd as [|? ? Hnotin Hnd']; subst.
    destruct (label_eqb k k0) eqn:E; simpl; constructor; auto.
    intros Hin. apply dict_setitem_keys in Hin.
    destruct Hin as [-> | Hin]; [|contradiction].
    rewrite (proj2 (label_eqb_eq k k) eq_refl) in E. discriminate.
Qed.

(** The dictionary of a series never has a key twice. *)
Lemma to_dict_NoDup (s : Series) : named_coefficients (to_dict s).
Proof.
  unfold named_coefficients, to_dict.
  assert (H : forall d : pydict,
             NoDup (map fst d) ->
             NoDup (map fst
                      (fold_left (fun d kv => dict_setitem d (fst kv) (snd kv))
                         s d))).
  { induction s as [|[k v] s IH]; intros d Hd; simpl; [exact Hd|].
    apply IH, dict_setitem_NoDup, Hd. }
  apply H. constructor.
Qed.

(** X11: loading what [save_model_params] wrote always succeeds, for
    every model, and the model loaded has distinct labels, the same
    penalizer coefficient, and saves to the very same document again. *)
Theorem saved_document_stable (bgf : BetaGeoFitter) :
  exists bgf',
    load_model_params (save_model_params bgf) = inr bgf'
    /\ named_coefficients (params_ bgf')
    /\ penalizer_coef bgf' = penalizer_coef bgf
    /\ save_model_params bgf' = save_model_params bgf.
Proof.
  exists (mkBetaGeoFitter (penalizer_coef bgf) (to_dict (params_ bgf))).
  split; [reflexivity|]. split; [apply to_dict_NoDup|]. split; [reflexivity|].
  unfold save_model_params. simpl.
  rewrite (to_dict_named _ (to_dict_NoDup (params_ bgf))). reflexivity.
Qed.

(** X12: the round trip through [save_model_params] and
    [load_model_params] gives back the very same model exactly when no
    label occurs twice in its series; with a repeated label an entry is
    lost. *)
Theorem round_trip_exact_iff_named (bgf : BetaGeoFitter) :
  load_model_params (save_model_params bgf) = inr bgf
  <-> named_coefficients (params_ bgf).
Proof.
  split.
  - unfold load_model_params, save_model_params. simpl.
    destruct bgf as [pc ps]. simpl. intros [= Heq].
    rewrite <- Heq at 1. apply to_dict_NoDup.
  - intros Hnamed. unfold load_model_params, save_model_params. simpl.
    rewrite (to_dict_named _ Hnamed). destruct bgf; reflexivity.
Qed.

(** A model with a repeated label comes back one entry shorter, with the
    later value at the place of the earlier one. *)
Example repeated_label_lost :
  load_model_params (save_model_params repeated_label_model)
  = inr (mkBetaGeoFitter (PyFloat (f64 7205759403792794 (-56)))
           [ (Name "r", PyFloat (f64 4503599627370496 (-52)));
             (Name "alpha", PyFloat (f64 4503599627370496 (-50))) ]).
Proof. reflexivity. Qed.

(** X16: for a model with distinct labels the entry [model_params.json]
    of the archive lists every coefficient once, in the order of the
    series, under [params], and then the penalizer coefficient. *)
Theorem model_params_json_lists_coefficients (bgf : BetaGeoFitter)
  (summary : DataFrame) :
  named_coefficients (params_ bgf) ->
  entry "model_params.json" (export_zip bgf summary)
  = Some (JsonText
            (JObject
               [ ("params",
                  JObject (map (fun kv => (label_repr (fst kv), json_dumps (snd kv)))
                             (params_ bgf)));
                 ("penalizer_coef", json_dumps (penalizer_coef bgf)) ])).
Proof.
  intros Hnamed. unfold export_zip, writestr, save_model_params. simpl.
  rewrite (to_dict_named _ Hnamed). do 6 f_equal.
  apply map_ext. intros [k v]. reflexivity.
Qed.

Lemma model_params_json_lists_coefficients_witness :
  entry "model_params.json" (export_zip sample_model scenario_frame)
  = Some (JsonText
            (JObject
               [ ("params",
                  JObject (map (fun kv => (label_repr (fst kv), json_dumps (snd kv)))
                             (params_ sample_model)));
                 ("penalizer_coef", json_dumps (penalizer_coef sample_model)) ])).
Proof.
  apply (model_params_json_lists_coefficients sample_model scenario_frame).
  unfold named_coefficients. simpl.
  repeat constructor; simpl; intuition discriminate.
Defined.

(** ** The run as a whole *)

Lemma run_pipeline_shows_no_error (L : Lib) (df : DataFrame)
  (penalizer : float) (time_period : Z) (msg : string) :
  ~ In (StError msg)
      (fst (run_pipeline L df penalizer time_period
              [StTitle "Customer Lifetime Value Prediction with BG/NBD Model"])).
Proof.
  unfold run_pipeline, plot_frequency_recency_heatmap, plot_validation,
    st_bind, lift, emit. simpl.
  destruct (transform L df) as [e | summary]; simpl;
    [intros H; no_such_event H|].
  destruct (train_model L summary (PyFloat penalizer)) as [e | bgf]; simpl;
    [intros H; no_such_event H|].
  destruct (make_predictions L bgf summary time_period) as [e | predicted];
    simpl; [intros H; no_such_event H|].
  destruct (getitems _ _) as [e | table]; simpl; [intros H; no_such_event H|].
  destruct (heatmap_data L bgf _) as [e | data]; simpl;
    [intros H; no_such_event H|].
  destruct (plot_period_transactions L bgf) as [e | []]; simpl;
    intros H; no_such_event H.
Qed.

(** X13: an error message is shown by ingestion only.  When a run of
    [main] shows one, a file was uploaded, its ingestion raised, the
    message is that exception's text after 'Error loading data: ', the
    page shows the title and this message and nothing else, and [main]
    returns without an exception. *)
Theorem error_message_only_from_ingestion (L : Lib)
  (uploaded_file : option string) (penalizer : float) (time_period : Z)
  (msg : string) :
  In (StError msg) (shown (main L uploaded_file penalizer time_period)) ->
  exists file e,
    uploaded_file = Some file
    /\ load_try L file = inl e
    /\ msg = "Error loading data: " ++ str e
    /\ shown (main L uploaded_file penalizer time_period)
       = [ StTitle "Customer Lifetime Value Prediction with BG/NBD Model";
           StError msg ]
    /\ outcome (main L uploaded_file penalizer time_period) = inr tt.
Proof.
  unfold shown, outcome. intros Hin.
  destruct uploaded_file as [file|]; [|no_such_event Hin].
  destruct (load_try L file) as [e | df] eqn:Hload.
  - exists file, e.
    unfold main, st_bind, emit, load_and_preprocess_data, st_ret in *.
    rewrite Hload in *. simpl in *.
    destruct Hin as [Hin | [Hin | []]]; [discriminate|].
    injection Hin as <-. repeat split; reflexivity.
  - rewrite (main_after_ingestion L file df _ _ [] Hload) in Hin.
    exfalso. exact (run_pipeline_shows_no_error L df _ _ msg Hin).
Qed.

Lemma error_message_only_from_ingestion_witness :
  exists file e,
    Some one_bad_date_csv = Some file
    /\ load_try sample_lib file = inl e
    /\ "Error loading data: Some date values couldn't be parsed. Please ensure all dates are in a valid format."
       = "Error loading data: " ++ str e
    /\ shown (main sample_lib (Some one_bad_date_csv) one_tenth 60)
       = [ StTitle "Customer Lifetime Value Prediction with BG/NBD Model";
           StError "Error loading data: Some date values couldn't be parsed. Please ensure all dates are in a valid format." ]
    /\ outcome (main sample_lib (Some one_bad_date_csv) one_tenth 60) = inr tt.
Proof.
  apply (error_message_only_from_ingestion sample_lib (Some one_bad_date_csv)
           one_tenth 60).
  vm_compute. right. left. reflexivity.
Defined.

Lemma run_pipeline_download_last (L : Lib) (df : DataFrame)
  (penalizer : float) (time_period : Z) (label : string)
  (zip_file : ZipFile) (file_name mime : string) :
  let run := run_pipeline L df penalizer time_period
               [StTitle "Customer Lifetime Value Prediction with BG/NBD Model"] in
  In (StDownloadButton label zip_file file_name mime) (fst run) ->
  snd run = inr tt
  /\ In (StSuccess "BG/NBD model trained successfully!") (fst run)
  /\ (exists data, In (StAltairChart data) (fst run))
  /\ In StPyplot (fst run)
  /\ last (fst run) StPyplot = StDownloadButton label zip_file file_name mime.
Proof.
  unfold run_pipeline, plot_frequency_recency_heatmap, plot_validation,
    st_bind, lift, emit. simpl.
  destruct (transform L df) as [e | summary]; simpl;
    [intros H; no_such_event H|].
  destruct (train_model L summary (PyFloat penalizer)) as [e | bgf]; simpl;
    [intros H; no_such_event H|].
  destruct (make_predictions L bgf summary time_period) as [e | predicted];
    simpl; [intros H; no_such_event H|].
  destruct (getitems _ _) as [e | table]; simpl; [intros H; no_such_event H|].
  destruct (heatmap_data L bgf _) as [e | data]; simpl;
    [intros H; no_such_event H|].
  destruct (plot_period_transactions L bgf) as [e | []]; simpl;
    [intros H; no_such_event H|].
  intros H.
  repeat (destruct H as [H | H]; [try discriminate|]); [|contradiction].
  rewrite H. split; [reflexivity|]. split; [tauto|].
  split; [exists data; tauto|]. split; [tauto | reflexivity].
Qed.

(** X14: the download button is the last thing a run shows, and it is
    shown only by a run that went through: [main] returned without an
    exception after the fit succeeded and both charts were drawn.  A run
    that an exception ends never offers the archive. *)
Theorem download_only_when_run_completes (L : Lib)
  (uploaded_file : option string) (penalizer : float) (time_period : Z)
  (label : string) (zip_file : ZipFile) (file_name mime : string) :
  In (StDownloadButton label zip_file file_name mime)
    (shown (main L uploaded_file penalizer time_period)) ->
  outcome (main L uploaded_file penalizer time_period) = inr tt
  /\ In (StSuccess "BG/NBD model trained successfully!")
       (shown (main L uploaded_file penalizer time_period))
  /\ (exists data,
        In (StAltairChart data)
          (shown (main L uploaded_file penalizer time_period)))
  /\ In StPyplot (shown (main L uploaded_file penalizer time_period))
  /\ last (shown (main L uploaded_file penalizer time_period)) StPyplot
     = StDownloadButton label zip_file file_name mime.
Proof.
  unfold shown, outcome. intros Hin.
  destruct uploaded_file as [file|]; [|no_such_event Hin].
  destruct (load_try L file) as [e | df] eqn:Hload.
  - unfold main, st_bind, emit, load_and_preprocess_data in Hin.
    rewrite Hload in Hin. no_such_event Hin.
  - rewrite (main_after_ingestion L file df _ _ [] Hload) in *.
    apply (run_pipeline_download_last L df penalizer time_period label
             zip_file file_name mime Hin).
Qed.

Lemma download_only_when_run_completes_witness :
  outcome (main sample_lib (Some scenario_csv) one_tenth 60) = inr tt
  /\ In (StSuccess "BG/NBD model trained successfully!")
       (shown (main sample_lib (Some scenario_csv) one_tenth 60))
  /\ (exists data,
        In (StAltairChart data)
          (shown (main sample_lib (Some scenario_csv) one_tenth 60)))
  /\ In StPyplot (shown (main sample_lib (Some scenario_csv) one_tenth 60))
  /\ last (shown (main sample_lib (Some scenario_csv) one_tenth 60)) StPyplot
     = StDownloadButton "Download Predictions and Model Parameters as ZIP"
         scenario_export "predictions_and_model_params.zip" "application/zip".
Proof.
  apply (download_only_when_run_completes sample_lib (Some scenario_csv)
           one_tenth 60).
  vm_compute. do 14 right. left. reflexivity.
Defined.

(** ** The records of [predictions.csv] *)

Lemma records_of_columns (value : cell -> cell -> cell -> cell)
  (fs rs ts : list cell) (n : nat) :
  List.length fs = n -> List.length rs = n -> List.length ts = n ->
  map (fun i => [nth i fs NA; nth i rs NA; nth i ts NA;
                 nth i (map3 value fs rs ts) NA]) (seq 0 n)
  = map3 (fun f r t => [f; r; t; value f r t]) fs rs ts.
Proof.
  revert fs rs ts. induction n as [|n IH]; intros [|f fs] [|r rs] [|t ts];
    simpl; try discriminate; [reflexivity|].
  intros [= Hf] [= Hr] [= Ht]. f_equal.
  rewrite <- seq_shift, map_map. simpl. apply IH; assumption.
Qed.

(** X15: for a summary table with the columns [frequency], [recency] and
    [T], each as long as the index, the entry [predictions.csv] holds one
    record per row of the table, in the order of the rows: the row's
    frequency, recency and T followed by the prediction made from these
    three values. *)
Theorem predictions_csv_rows (L : Lib) (bgf : BetaGeoFitter)
  (summary : DataFrame) (time_period : Z) (fs rs ts : list cell) :
  columns summary = [("frequency", fs); ("recency", rs); ("T", ts)] ->
  List.length fs = nrows summary ->
  List.length rs = nrows summary ->
  List.length ts = nrows summary ->
  exists predicted,
    make_predictions L bgf summary time_period = inr predicted
    /\ entry "predictions.csv"
         (export_zip bgf (setitem summary "predicted_transactions" predicted))
       = Some (CsvText
                 (mkCsv ["frequency"; "recency"; "T"; "predicted_transactions"]
                    (map3 (fun f r t =>
                             [f; r; t;
                              Flt (conditional_expected_number_of_purchases_up_to_time
                                     L bgf (Num time_period) f r t)])
                       fs rs ts))).
Proof.
  intros Hcols Hf Hr Ht.
  unfold make_predictions, getitem. rewrite Hcols. simpl.
  eexists. split; [reflexivity|].
  unfold export_zip, writestr, to_csv, setitem, column_names, nrows in *.
  simpl. rewrite Hcols. simpl. do 3 f_equal.
  apply (records_of_columns
           (fun f r t =>
              Flt (conditional_expected_number_of_purchases_up_to_time
                     L bgf (Num time_period) f r t))); assumption.
Qed.

Lemma predictions_csv_rows_witness :
  exists predicted,
    make_predictions sample_lib sample_model
      (summary_frame "customer_id" (summarize scenario_log (cutoff_of scenario_log)))
      60
    = inr predicted
    /\ entry "predictions.csv"
         (export_zip sample_model
            (setitem
               (summary_frame "customer_id"
                  (summarize scenario_log (cutoff_of scenario_log)))
               "predicted_transactions" predicted))
       = Some (CsvText
                 (mkCsv ["frequency"; "recency"; "T"; "predicted_transactions"]
                    (map3 (fun f r t =>
                             [f; r; t;
                              Flt (sample_expectation sample_model (Num 60) f r t)])
                       [Num 1; Num 0] [Num 31; Num 0] [Num 31; Num 17]))).
Proof.
  apply (predictions_csv_rows sample_lib sample_model
           (summary_frame "customer_id" (summarize scenario_log (cutoff_of scenario_log)))
           60 [Num 1; Num 0] [Num 31; Num 0] [Num 31; Num 17]);
    reflexivity.
Defined.
